(** * SmartResumeGenAI: a shallow embedding of [app2.py]

    The program is a Streamlit script: it renders a form, sends free-text
    fields to a generative-text service, fills a python-docx document and
    emits a base64 download link.  The embedding follows the script
    function by function.

    - Python [str] values are [string]s (code points below 256).
    - A Python [dict] with string keys is a [gmap string string]; indexing a
      missing key raises [KeyError].
    - The python-docx [Document] is modelled at the level of its API: the
      ordered list of paragraphs appended by [add_heading]/[add_paragraph],
      each with the style and the text that was passed to the call.
    - Effects (Streamlit calls, calls to the text-generation service) are
      recorded in an event trace; the service's answer may depend on the
      whole history of events so far.  Exceptions are an error result. *)

From Stdlib Require Import Ascii String DecimalString.
From stdpp Require Import gmap strings list fin_maps.

Local Open Scope string_scope.
Local Open Scope list_scope.

(** ** Python string helpers *)

Definition dquote : string := String "034"%char "".
Definition nl : string := String "010"%char "".

(** [str(n)] for a non-negative integer. *)
Definition str_nat (n : nat) : string := NilEmpty.string_of_uint (Nat.to_uint n).

(** Truth value of a [str]: only the empty string is falsy. *)
Definition truthy (s : string) : bool :=
  match s with
  | "" => false
  | String _ _ => true
  end.

(** [str.isspace] on one character, for the code points below 256:
    TAB, LF, VT, FF, CR, FS, GS, RS, US, SPACE, NEL and NBSP. *)
Definition isspace (c : ascii) : bool :=
  let n := nat_of_ascii c in
  (Nat.leb 9 n && Nat.leb n 13) || (Nat.leb 28 n && Nat.leb n 32)
  || Nat.eqb n 133 || Nat.eqb n 160.

Fixpoint lstrip (s : string) : string :=
  match s with
  | "" => ""
  | String c s' => if isspace c then lstrip s' else s
  end.

Fixpoint rstrip (s : string) : string :=
  match s with
  | "" => ""
  | String c s' =>
      match rstrip s' with
      | "" => if isspace c then "" else String c ""
      | r => String c r
      end
  end.

(** [s.strip()] *)
Definition strip (s : string) : string := rstrip (lstrip s).

(** [s.split(sep)] for a one-character separator. The result is never
    empty: [''.split(',')] is [['']]. *)
Fixpoint split (sep : ascii) (s : string) : list string :=
  match s with
  | "" => [""]
  | String c s' =>
      if Ascii.eqb c sep then "" :: split sep s'
      else match split sep s' with
           | t :: ts => String c t :: ts
           | [] => [String c ""]
           end
  end.

(** [sep.join(l)] *)
Fixpoint join (sep : string) (l : list string) : string :=
  match l with
  | [] => ""
  | [t] => t
  | t :: ts => t +:+ sep +:+ join sep ts
  end.

(** [s.startswith(p)] *)
Fixpoint startswith (p s : string) : bool :=
  match p, s with
  | "", _ => true
  | String a p', String b s' => Ascii.eqb a b && startswith p' s'
  | String _ _, "" => false
  end.

Fixpoint count_char (c : ascii) (s : string) : nat :=
  match s with
  | "" => 0
  | String a s' => (if Ascii.eqb a c then 1 else 0) + count_char c s'
  end.

(** Vocabulary for what [strip] returns. *)
Fixpoint all_space (s : string) : bool :=
  match s with
  | "" => true
  | String c s' => isspace c && all_space s'
  end.

Definition starts_space (s : string) : bool :=
  match s with
  | "" => false
  | String c _ => isspace c
  end.

Fixpoint ends_space (s : string) : bool :=
  match s with
  | "" => false
  | String c "" => isspace c
  | String _ s' => ends_space s'
  end.

(** ** base64 (RFC 4648, the alphabet of [base64.b64encode]) *)

Module Base64.

(** A byte of a Python [bytes] object. [Ascii b0 .. b7] has [b0] as the
    least significant bit. *)
Abbreviation byte := ascii.

(** Six bits, most significant first. *)
Definition sextet : Type := bool * bool * bool * bool * bool * bool.

Definition alphabet : string :=
  "ABCDEFGHIJKLMNOPQRSTUVWXYZabcdefghijklmnopqrstuvwxyz0123456789+/".

Definition pad : ascii := "="%char.

Definition bit (b : bool) : nat := if b then 1 else 0.

Definition sextet_index (s : sextet) : nat :=
  let '(b5, b4, b3, b2, b1, b0) := s in
  32 * bit b5 + 16 * bit b4 + 8 * bit b3 + 4 * bit b2 + 2 * bit b1 + bit b0.

Definition index_sextet (n : nat) : sextet :=
  (Nat.testbit n 5, Nat.testbit n 4, Nat.testbit n 3,
   Nat.testbit n 2, Nat.testbit n 1, Nat.testbit n 0).

Definition encode_sextet (s : sextet) : ascii :=
  match String.get (sextet_index s) alphabet with
  | Some c => c
  | None => pad
  end.

Fixpoint find_index (c : ascii) (s : string) (i : nat) : option nat :=
  match s with
  | "" => None
  | String a s' => if Ascii.eqb a c then Some i else find_index c s' (S i)
  end.

Definition decode_sextet (c : ascii) : option sextet :=
  index_sextet <$> find_index c alphabet 0.

(** [base64.b64encode(bs).decode()]: three bytes give four characters;
    a final group of one or two bytes is zero-filled and padded. *)
Fixpoint b64encode (bs : list byte) : string :=
  match bs with
  | [] => ""
  | [Ascii a0 a1 a2 a3 a4 a5 a6 a7] =>
      String (encode_sextet (a7, a6, a5, a4, a3, a2))
     (String (encode_sextet (a1, a0, false, false, false, false))
     (String pad (String pad "")))
  | [Ascii a0 a1 a2 a3 a4 a5 a6 a7; Ascii b0 b1 b2 b3 b4 b5 b6 b7] =>
      String (encode_sextet (a7, a6, a5, a4, a3, a2))
     (String (encode_sextet (a1, a0, b7, b6, b5, b4))
     (String (encode_sextet (b3, b2, b1, b0, false, false))
     (String pad "")))
  | Ascii a0 a1 a2 a3 a4 a5 a6 a7 :: Ascii b0 b1 b2 b3 b4 b5 b6 b7
      :: Ascii c0 c1 c2 c3 c4 c5 c6 c7 :: rest =>
      String (encode_sextet (a7, a6, a5, a4, a3, a2))
     (String (encode_sextet (a1, a0, b7, b6, b5, b4))
     (String (encode_sextet (b3, b2, b1, b0, c7, c6))
     (String (encode_sextet (c5, c4, c3, c2, c1, c0))
     (b64encode rest))))
  end.

Definition byte1 (s1 s2 : sextet) : byte :=
  let '(a7, a6, a5, a4, a3, a2) := s1 in
  let '(a1, a0, _, _, _, _) := s2 in
  Ascii a0 a1 a2 a3 a4 a5 a6 a7.

Definition byte2 (s2 s3 : sextet) : byte :=
  let '(_, _, b7, b6, b5, b4) := s2 in
  let '(b3, b2, b1, b0, _, _) := s3 in
  Ascii b0 b1 b2 b3 b4 b5 b6 b7.

Definition byte3 (s3 s4 : sextet) : byte :=
  let '(_, _, _, _, c7, c6) := s3 in
  let '(c5, c4, c3, c2, c1, c0) := s4 in
  Ascii c0 c1 c2 c3 c4 c5 c6 c7.

(** The decoder of the receiving side: groups of four characters, padding
    only in the last group. [None] on malformed input. *)
Fixpoint b64decode (s : string) : option (list byte) :=
  match s with
  | "" => Some []
  | String c1 (String c2 (String c3 (String c4 rest))) =>
      s1 ← decode_sextet c1;
      s2 ← decode_sextet c2;
      if Ascii.eqb c3 pad then
        if Ascii.eqb c4 pad && negb (truthy rest) then Some [byte1 s1 s2]
        else None
      else
        s3 ← decode_sextet c3;
        if Ascii.eqb c4 pad then
          if negb (truthy rest) then Some [byte1 s1 s2; byte2 s2 s3]
          else None
        else
          s4 ← decode_sextet c4;
          tl ← b64decode rest;
          Some (byte1 s1 s2 :: byte2 s2 s3 :: byte3 s3 s4 :: tl)
  | _ => None
  end.

End Base64.

(** ** The python-docx document, at the level of its API *)

Record Paragraph := mkParagraph {
  style : option string;   (* [None]: the template's default style *)
  text : string
}.

(** [document.paragraphs], in document order. *)
Definition Document : Type := list Paragraph.

(** [Document()]: the default template has no paragraph. *)
Definition Document_new : Document := [].

(** [document.add_paragraph(text, style)] *)
Definition add_paragraph (text : string) (style : option string)
    (document : Document) : Document :=
  document ++ [mkParagraph style text].

(** [document.add_heading(text, level)]: a paragraph in style "Title" for
    level 0 and "Heading <level>" otherwise. *)
Definition heading_style (level : nat) : string :=
  match level with
  | 0 => "Title"
  | _ => "Heading " +:+ str_nat level
  end.

Definition add_heading (text : string) (level : nat)
    (document : Document) : Document :=
  add_paragraph text (Some (heading_style level)) document.

(** ** Effects: event trace, exceptions, the script monad *)

(** What [model.generate_content(prompt)] followed by [response.text] does:
    it yields the response text or raises an [Exception] whose [str()] is
    [e]. *)
Inductive outcome :=
  | Text (t : string)
  | Raise (e : string).

(** One event per call that reaches the outside: a prompt sent to the
    service, or a Streamlit call with the arguments that decide what is
    shown (the [help] tooltip of a text area and the [use_column_width]
    flag of an image are not recorded). *)
Inductive event :=
  | GenerateContent (prompt : string)
  | StTitle (body : string)
  | StHeader (body : string)
  | StSubheader (body : string)
  | StWrite (body : string)
  | StError (body : string)
  | StWarning (body : string)
  | StSuccess (body : string)
  | StMarkdown (body : string) (unsafe_allow_html : bool)
  | StImage (image : list ascii) (caption : string)
  | StForm (key : string)
  | StTextInput (label : string)
  | StTextArea (label : string)
  | StNumberInput (label : string) (min_value max_value value step : nat)
  | StFormSubmitButton (label : string).

Inductive exn :=
  | KeyError (key : string)
  | ServiceError (msg : string)
  | StopException.

(** [str(e)] *)
Definition str_exn (e : exn) : string :=
  match e with
  | KeyError key => "'" +:+ key +:+ "'"
  | ServiceError msg => msg
  | StopException => ""
  end.

(** [raise] of a [BaseException] that is not an [Exception] is not caught
    by [except Exception]; [KeyError] and the service's errors are. *)
Definition is_Exception (e : exn) : bool :=
  match e with
  | KeyError _ | ServiceError _ => true
  | StopException => false
  end.

Inductive result (A : Type) :=
  | Ok (a : A)
  | Err (e : exn).
Arguments Ok {A} a.
Arguments Err {A} e.

(** A computation reads the history of events so far and returns a result
    together with the events it emitted itself. *)
Definition M (A : Type) : Type := list event -> result A * list event.

#[global] Instance M_ret : MRet M := fun A a _ => (Ok a, []).

#[global] Instance M_bind : MBind M := fun A B f m h =>
  match m h with
  | (Ok a, out) =>
      match f a (h ++ out) with
      | (r, out') => (r, out ++ out')
      end
  | (Err e, out) => (Err e, out)
  end.

Definition raise {A} (e : exn) : M A := fun _ => (Err e, []).

Definition emit (ev : event) : M () := fun _ => (Ok (), [ev]).

(** [try: body except Exception as e: handler(e)] *)
Definition try_except {A} (body : M A) (handler : exn -> M A) : M A :=
  fun h =>
    match body h with
    | (Ok a, out) => (Ok a, out)
    | (Err e, out) =>
        if is_Exception e then
          match handler e (h ++ out) with
          | (r, out') => (r, out ++ out')
          end
        else (Err e, out)
    end.

(** [for x in l: s = body(x, s)] *)
Fixpoint for_each {A S} (l : list A) (body : A -> S -> M S) (s : S) : M S :=
  match l with
  | [] => mret s
  | x :: l' => s' ← body x s; for_each l' body s'
  end.

(** [d[key]] *)
Definition getitem (d : gmap string string) (key : string) : M string :=
  match d !! key with
  | Some v => mret v
  | None => raise (KeyError key)
  end.

(** [key in d] *)
Definition contains (d : gmap string string) (key : string) : bool :=
  bool_decide (is_Some (d !! key)).

(** ** [repr] of the placeholder LinkedIn dataset *)

(** A dict literal, in insertion order. *)
Definition entry : Type := list (string * string).

Definition contains_char (c : ascii) (s : string) : bool :=
  Nat.ltb 0 (count_char c s).

(** [repr(s)] for printable text without backslashes: single quotes unless
    the text has a single quote and no double quote. *)
Definition repr_str (s : string) : string :=
  if contains_char "'"%char s && negb (contains_char "034"%char s)
  then dquote +:+ s +:+ dquote
  else "'" +:+ s +:+ "'".

Definition repr_entry (d : entry) : string :=
  "{" +:+ join ", " (map (fun kv => repr_str kv.1 +:+ ": " +:+ repr_str kv.2) d) +:+ "}".

Definition repr_entries (l : list entry) : string :=
  "[" +:+ join ", " (map repr_entry l) +:+ "]".

Record linkedin_profile := {
  li_name : string;
  li_skills : string;
  li_experience : list entry;
  li_education : list entry
}.

(** [str(linkedin_data)] *)
Definition str_linkedin_data (d : linkedin_profile) : string :=
  "{'name': " +:+ repr_str (li_name d) +:+
  ", 'skills': " +:+ repr_str (li_skills d) +:+
  ", 'experience': " +:+ repr_entries (li_experience d) +:+
  ", 'education': " +:+ repr_entries (li_education d) +:+ "}".

(** ** The environment *)

(** [load_dotenv()]: the entries of the [.env] file are added to the
    process environment, existing variables are kept. *)
Definition load_dotenv (dotenv environ : gmap string string) : gmap string string :=
  environ ∪ dotenv.

(** [os.getenv(key)] *)
Definition os_getenv (environ : gmap string string) (key : string) : option string :=
  environ !! key.

(** Truth value of an optional [str]: [None] and [''] are falsy. *)
Definition truthy_opt (o : option string) : bool :=
  match o with
  | Some s => truthy s
  | None => false
  end.

(** [urlparse(url)]: the three components the script reads. *)
Record ParseResult := {
  scheme : string;
  netloc : string;
  path : string
}.

(** The widget values of one script run, by widget label. *)
Record UI := {
  ui_text_input : string -> string;
  ui_text_area : string -> string;
  ui_number_input : string -> nat;
  ui_form_submit_button : string -> bool
}.

(** ** The script *)

Section Script.

(** The text-generation service: the outcome of
    [model.generate_content(prompt).text] after the given history. *)
Variable service : list event -> string -> outcome.

(** [urllib.parse.urlparse]; [None] when it raises. *)
Variable urlparse : string -> option ParseResult.

(** [document.save(buffer); buffer.read()]: the bytes of the docx archive. *)
Variable docx_save : Document -> list ascii.

(** The [qrcode]/[PIL] pipeline of [generate_qr_code]: the PNG bytes. *)
Variable qr_png : string -> list ascii.

(** The widget values of this run. *)
Variable ui : UI.

(** [model.generate_content(prompt)] and [response.text] *)
Definition model_generate_content (prompt : string) : M string :=
  fun h =>
    (match service h prompt with
     | Text t => Ok t
     | Raise e => Err (ServiceError e)
     end, [GenerateContent prompt]).

Definition summarize_experience_prompt (description : string) : string :=
  "Summarize the following job description in 3 concise bullet points, highlighting accomplishments and quantifiable results.  Focus on keywords that would be relevant to recruiters:"
  +:+ nl +:+ nl +:+ description.

Definition summarize_experience (description : string) : M string :=
  let prompt := summarize_experience_prompt description in
  try_except
    (response_text ← model_generate_content prompt; mret response_text)
    (fun e => mret ("Error summarizing experience: " +:+ str_exn e)).

Definition generate_skills_suggestions (description : string) : M string :=
  let prompt :=
    "Extract a list of relevant skills from the following job description:"
    +:+ nl +:+ nl +:+ description in
  try_except
    (response_text ← model_generate_content prompt; mret response_text)
    (fun e => mret ("Error generating skills: " +:+ str_exn e)).

Definition generate_cover_letter (name job_description : string) : M string :=
  let prompt :=
    "Write a cover letter for " +:+ name +:+
    " based on the following job description.  The cover letter should be concise and highlight relevant skills and experience.  Make it professional and engaging:"
    +:+ nl +:+ nl +:+ job_description in
  try_except
    (response_text ← model_generate_content prompt; mret response_text)
    (fun e => mret ("Error generating cover letter: " +:+ str_exn e)).

Definition suggest_improvements (job_description skills : string) : M string :=
  let prompt :=
    "Based on the following job description and provided skills, suggest improvements to strengthen the profile, including relevant certifications, projects, or portfolios to add: "
    +:+ nl +:+ nl +:+ "Job Description: " +:+ job_description
    +:+ nl +:+ "Skills: " +:+ skills in
  try_except
    (response_text ← model_generate_content prompt; mret response_text)
    (fun e => mret ("Error generating suggestions: " +:+ str_exn e)).

Definition extract_skills_qualifications (job_description : string) : M string :=
  let prompt :=
    "Extract key skills, qualifications, and responsibilities from the following job description:"
    +:+ nl +:+ nl +:+ job_description in
  try_except
    (response_text ← model_generate_content prompt; mret response_text)
    (fun e => mret ("Error extracting skills and qualifications: " +:+ str_exn e)).

Definition highlight_missing_skills (user_skills extracted_skills : string) : M string :=
  let prompt :=
    "You are a career expert comparing two lists of skills. Given the following list of skills the candidate posesses: "
    +:+ user_skills +:+
    ", and the following list of skills required by a job description: "
    +:+ extracted_skills +:+ ", what skills are the candidate missing?"
    +:+ nl +:+ "    Make your response a comma separated list of skills" in
  try_except
    (response_text ← model_generate_content prompt; mret response_text)
    (fun e => mret ("Error highlighting missing skills: " +:+ str_exn e)).

Definition generate_qr_code (data : string) : list ascii := qr_png data.

Definition is_valid_linkedin_url (url : string) : bool :=
  match urlparse url with
  | Some result =>
      forallb id [truthy (scheme result);
                  String.eqb (netloc result) "www.linkedin.com";
                  startswith "/in/" (path result)]
  | None => false
  end.

Definition linkedin_dummy : linkedin_profile := {|
  li_name := "John Doe (Example)";
  li_skills := "Python, Data Analysis, Machine Learning";
  li_experience :=
    [[("title", "Data Scientist"); ("company", "Example Corp");
      ("dates", "2020-Present");
      ("description", "Built machine learning models.")]];
  li_education :=
    [[("degree", "Master's in CS"); ("school", "Example University");
      ("dates", "2018-2020"); ("description", "Focus on AI.")]]
|}.

Definition fetch_linkedin_data (linkedin_url : string) : M (option linkedin_profile) :=
  emit (StWarning "Fetching LinkedIn data directly is risky.  Use a LinkedIn API or proceed with caution.");;
  try_except
    (mret (Some linkedin_dummy))
    (fun e =>
       emit (StError ("Error fetching LinkedIn data: " +:+ str_exn e));;
       mret None).

Definition suggest_profile_improvements (linkedin_data : linkedin_profile) : M string :=
  let prompt :=
    "Based on the following LinkedIn profile data, suggest improvements to the profile to make it stronger based on industry best practices. Consider profile completeness, keyword usage, and showcasing accomplishments:"
    +:+ nl +:+ nl +:+ str_linkedin_data linkedin_data in
  try_except
    (response_text ← model_generate_content prompt; mret response_text)
    (fun e => mret ("Error suggesting profile improvements: " +:+ str_exn e)).

Definition generate_interview_questions (resume_content : string) : M string :=
  let prompt :=
    "Generate potential interview questions based on the following resume content. Cover a range of topics, including experience, skills, and projects:"
    +:+ nl +:+ nl +:+ resume_content in
  try_except
    (response_text ← model_generate_content prompt; mret response_text)
    (fun e => mret ("Error generating interview questions: " +:+ str_exn e)).

Definition analyze_strengths_weaknesses (resume_content : string) : M string :=
  let prompt :=
    "Analyze the strengths and weaknesses of a candidate based on the following resume content. Provide constructive feedback:"
    +:+ nl +:+ nl +:+ resume_content in
  try_except
    (response_text ← model_generate_content prompt; mret response_text)
    (fun e => mret ("Error analyzing strengths and weaknesses: " +:+ str_exn e)).

(** *** [generate_resume] *)

(** Body of [for skill in skills_list]. *)
Definition skill_body (skill : string) (document : Document) : M Document :=
  mret (add_paragraph (strip skill) (Some "List Bullet") document).

(** Body of [for exp in experience]. *)
Definition experience_body (exp : gmap string string) (document : Document)
    : M Document :=
  title ← getitem exp "title";
  let document := add_paragraph title (Some "Heading 3") document in
  company ← getitem exp "company";
  dates ← getitem exp "dates";
  let document := add_paragraph (company +:+ " | " +:+ dates) None document in
  cond ← (if contains exp "description"
          then d ← getitem exp "description"; mret (truthy d)
          else mret false);
  if cond : bool then
    d ← getitem exp "description";
    summarized_description ← summarize_experience d;
    mret (add_paragraph summarized_description None document)
  else
    d ← getitem exp "description";
    mret (add_paragraph d None document).

(** Body of [for edu in education]. *)
Definition education_body (edu : gmap string string) (document : Document)
    : M Document :=
  degree ← getitem edu "degree";
  let document := add_paragraph degree (Some "Heading 3") document in
  school ← getitem edu "school";
  dates ← getitem edu "dates";
  let document := add_paragraph (school +:+ " | " +:+ dates) None document in
  description ← getitem edu "description";
  mret (add_paragraph description None document).

(** Body of [for proj in projects]. *)
Definition project_body (proj : gmap string string) (document : Document)
    : M Document :=
  title ← getitem proj "title";
  let document := add_paragraph title (Some "Heading 3") document in
  description ← getitem proj "description";
  mret (add_paragraph description None document).

Definition generate_resume (name email phone linkedin github skills : string)
    (experience education projects : list (gmap string string)) : M Document :=
  let document := Document_new in
  let document := add_heading name 1 document in
  let header_info :=
    email +:+ " | " +:+ phone +:+ " | [LinkedIn](" +:+ linkedin
    +:+ ") | [GitHub](" +:+ github +:+ ")" in
  let document := add_paragraph header_info None document in
  let document := add_heading "Skills" 2 document in
  let skills_list := split ","%char skills in
  document ← for_each skills_list skill_body document;
  let document := add_heading "Experience" 2 document in
  document ← for_each experience experience_body document;
  let document := add_heading "Education" 2 document in
  document ← for_each education education_body document;
  let document := add_heading "Projects" 2 document in
  document ← for_each projects project_body document;
  mret document.

(** *** Streamlit widgets *)

Definition st_text_input (label : string) : M string :=
  fun _ => (Ok (ui_text_input ui label), [StTextInput label]).

Definition st_text_area (label : string) : M string :=
  fun _ => (Ok (ui_text_area ui label), [StTextArea label]).

(** The widget only yields values between [min_value] and [max_value]. *)
Definition st_number_input (label : string)
    (min_value max_value value step : nat) : M nat :=
  fun _ => (Ok (Nat.max min_value (Nat.min max_value (ui_number_input ui label))),
            [StNumberInput label min_value max_value value step]).

Definition st_form_submit_button (label : string) : M bool :=
  fun _ => (Ok (ui_form_submit_button ui label), [StFormSubmitButton label]).

(** [st.stop()] raises Streamlit's script-control exception. *)
Definition st_stop : M () := raise StopException.

(** *** [main] *)

(** The values bound inside [with st.form("resume_form")]. *)
Record Form := {
  name : string;
  email : string;
  phone : string;
  linkedin : string;
  github : string;
  skills : string;
  experience : list (gmap string string);
  education : list (gmap string string);
  projects : list (gmap string string);
  job_description : string;
  submitted : bool
}.

(** Body of [for i in range(num_experiences)]. *)
Definition experience_form (i : nat) (experience : list (gmap string string))
    : M (list (gmap string string)) :=
  emit (StSubheader ("Experience #" +:+ str_nat (i + 1)));;
  title ← st_text_input ("Job Title #" +:+ str_nat (i + 1));
  company ← st_text_input ("Company #" +:+ str_nat (i + 1));
  dates ← st_text_input ("Dates (e.g., Jan 2020 - Present) #" +:+ str_nat (i + 1));
  description ← st_text_area ("Description of Responsibilities #" +:+ str_nat (i + 1));
  skills_suggestions ← generate_skills_suggestions description;
  emit (StWrite ("Suggested Skills for this Experience:" +:+ nl +:+ skills_suggestions));;
  mret (experience ++
        [<["description" := description]> (<["dates" := dates]>
          (<["company" := company]> (<["title" := title]> ∅)))]).

(** Body of [for i in range(num_educations)]. *)
Definition education_form (i : nat) (education : list (gmap string string))
    : M (list (gmap string string)) :=
  emit (StSubheader ("Education #" +:+ str_nat (i + 1)));;
  degree ← st_text_input ("Degree #" +:+ str_nat (i + 1));
  school ← st_text_input ("School #" +:+ str_nat (i + 1));
  dates ← st_text_input ("Dates (e.g., Sep 2016 - May 2020) #" +:+ str_nat (i + 1));
  description ← st_text_area ("Description of Studies/Achievements #" +:+ str_nat (i + 1));
  mret (education ++
        [<["description" := description]> (<["dates" := dates]>
          (<["school" := school]> (<["degree" := degree]> ∅)))]).

(** Body of [for i in range(num_projects)]. *)
Definition project_form (i : nat) (projects : list (gmap string string))
    : M (list (gmap string string)) :=
  emit (StSubheader ("Project #" +:+ str_nat (i + 1)));;
  title ← st_text_input ("Project Title #" +:+ str_nat (i + 1));
  description ← st_text_area ("Project Description #" +:+ str_nat (i + 1));
  mret (projects ++
        [<["description" := description]> (<["title" := title]> ∅)]).

(** Lines 218-267: the form. *)
Definition render_form : M Form :=
  emit (StForm "resume_form");;
  emit (StHeader "Personal Information");;
  name ← st_text_input "Full Name";
  email ← st_text_input "Email Address";
  phone ← st_text_input "Phone Number";
  linkedin ← st_text_input "LinkedIn Profile URL";
  github ← st_text_input "GitHub Profile URL";
  emit (StHeader "Skills");;
  skills ← st_text_area "Skills (comma-separated)";
  emit (StHeader "Experience");;
  num_experiences ← st_number_input "Number of Experience Entries" 0 5 1 1;
  experience ← for_each (seq 0 num_experiences) experience_form [];
  emit (StHeader "Education");;
  num_educations ← st_number_input "Number of Education Entries" 0 3 1 1;
  education ← for_each (seq 0 num_educations) education_form [];
  emit (StHeader "Projects");;
  num_projects ← st_number_input "Number of Projects" 0 5 1 1;
  projects ← for_each (seq 0 num_projects) project_form [];
  emit (StHeader "Job Description Analysis");;
  job_description ← st_text_area "Paste Job Description Here";
  submitted ← st_form_submit_button "Generate Resume";
  mret {| name := name; email := email; phone := phone;
          linkedin := linkedin; github := github; skills := skills;
          experience := experience; education := education;
          projects := projects; job_description := job_description;
          submitted := submitted |}.

(** Lines 274-285: the LinkedIn placeholder. *)
Definition linkedin_integration (linkedin : string) : M () :=
  if truthy linkedin && is_valid_linkedin_url linkedin then
    linkedin_data ← fetch_linkedin_data linkedin;
    match linkedin_data with
    | Some data =>
        emit (StSuccess "LinkedIn data fetched (with caution!).");;
        profile_improvements ← suggest_profile_improvements data;
        emit (StHeader "LinkedIn Profile Improvement Suggestions");;
        emit (StWrite profile_improvements)
    | None => mret ()
    end
  else
    emit (StWarning "Invalid LinkedIn URL or LinkedIn integration skipped.").

(** Lines 291-294. *)
Definition resume_text_of (document : Document) : string :=
  fold_left (fun resume_text paragraph => resume_text +:+ text paragraph +:+ nl)
            document "".

(** Line 303. *)
Definition download_href (b64 name : string) : string :=
  "<a href=" +:+ dquote +:+
  "data:application/vnd.openxmlformats-officedocument.wordprocessingml.document;base64,"
  +:+ b64 +:+ dquote +:+ " download=" +:+ dquote +:+ name +:+ "_resume.docx"
  +:+ dquote +:+ ">Download Resume (docx)</a>".

(** Lines 306-337: what follows the download link. *)
Definition after_download (f : Form) (resume_text : string) : M () :=
  let resume_url := "https://linkedin.com/in/" +:+ linkedin f in
  let qr_code_image := generate_qr_code resume_url in
  emit (StImage qr_code_image "Scan to view interactive resume (placeholder)");;
  cover_letter ← generate_cover_letter (name f) (job_description f);
  emit (StHeader "Generated Cover Letter");;
  emit (StWrite cover_letter);;
  improvements ← suggest_improvements (job_description f) (skills f);
  emit (StHeader "Suggested Improvements");;
  emit (StWrite improvements);;
  extracted_skills ← extract_skills_qualifications (job_description f);
  emit (StHeader "Extracted Skills from Job Description");;
  emit (StWrite extracted_skills);;
  missing_skills ← highlight_missing_skills (skills f) extracted_skills;
  emit (StHeader "Missing Skills (Based on Job Description)");;
  emit (StWrite missing_skills);;
  interview_questions ← generate_interview_questions resume_text;
  emit (StHeader "Possible Interview Questions");;
  emit (StWrite interview_questions);;
  strengths_weaknesses ← analyze_strengths_weaknesses resume_text;
  emit (StHeader "Strengths and Weaknesses Analysis");;
  emit (StWrite strengths_weaknesses).

(** Lines 273-337: the [else] branch of the validation. *)
Definition process (f : Form) : M () :=
  linkedin_integration (linkedin f);;
  document ← generate_resume (name f) (email f) (phone f) (linkedin f)
               (github f) (skills f) (experience f) (education f) (projects f);
  let resume_text := resume_text_of document in
  let buffer := docx_save document in
  let b64 := Base64.b64encode buffer in
  let href := download_href b64 (name f) in
  emit (StMarkdown href true);;
  after_download f resume_text.

(** Lines 269-273. *)
Definition on_submit (f : Form) : M () :=
  if submitted f then
    if negb (truthy (name f)) || negb (truthy (email f)) || negb (truthy (skills f))
    then emit (StError "Please fill in all required fields (Name, Email, Skills).")
    else process f
  else mret ().

Definition main : M () :=
  emit (StTitle "Smart Resume Generator");;
  f ← render_form;
  on_submit f.

(** Lines 16-25 and 340-341: the module body. *)
Definition script (dotenv environ : gmap string string) : M () :=
  let environ := load_dotenv dotenv environ in
  let GOOGLE_API_KEY := os_getenv environ "GOOGLE_API_KEY" in
  (if negb (truthy_opt GOOGLE_API_KEY) then
     emit (StError "Please set the GOOGLE_API_KEY environment variable.");;
     st_stop
   else mret ());;
  main.

End Script.

Arguments name : clear implicits.

(** ** Reading a document back: sections and sub-blocks *)

(** Cuts a paragraph list at the paragraphs that open a block: the
    paragraphs before the first opener, then each opener with the
    paragraphs up to the next one. *)
Fixpoint split_blocks (opens : Paragraph -> bool) (ps : list Paragraph)
    : list Paragraph * list (Paragraph * list Paragraph) :=
  match ps with
  | [] => ([], [])
  | p :: ps' =>
      let '(pre, bs) := split_blocks opens ps' in
      if opens p then ([], (p, pre) :: bs) else (p :: pre, bs)
  end.

Definition has_style (s : string) (p : Paragraph) : bool :=
  match style p with
  | Some s' => String.eqb s' s
  | None => false
  end.

(** A section is opened by a level-1 or level-2 heading. *)
Definition is_section_heading (p : Paragraph) : bool :=
  has_style "Heading 1" p || has_style "Heading 2" p.

(** An entry sub-block is opened by a "Heading 3" paragraph. *)
Definition is_entry_heading (p : Paragraph) : bool := has_style "Heading 3" p.

Definition sections (document : Document) : list (Paragraph * list Paragraph) :=
  (split_blocks is_section_heading document).2.

Definition sub_blocks (body : list Paragraph) : list (Paragraph * list Paragraph) :=
  (split_blocks is_entry_heading body).2.

(** The paragraphs the script adds, by kind. *)
Definition heading1 (t : string) : Paragraph := mkParagraph (Some "Heading 1") t.
Definition heading2 (t : string) : Paragraph := mkParagraph (Some "Heading 2") t.
Definition heading3 (t : string) : Paragraph := mkParagraph (Some "Heading 3") t.
Definition bullet (t : string) : Paragraph := mkParagraph (Some "List Bullet") t.
Definition plain (t : string) : Paragraph := mkParagraph None t.

(** The contact line under the name (line 176). *)
Definition header_info (email phone linkedin github : string) : string :=
  email +:+ " | " +:+ phone +:+ " | [LinkedIn](" +:+ linkedin
  +:+ ") | [GitHub](" +:+ github +:+ ")".

(** The paragraph sequence of a resume whose three loops appended the
    groups [eg], [dg] and [pg]. *)
Definition resume_layout (name email phone linkedin github skills : string)
    (eg dg pg : list (list Paragraph)) : Document :=
  heading1 name :: plain (header_info email phone linkedin github)
  :: heading2 "Skills" :: map bullet (map strip (split ","%char skills))
  ++ heading2 "Experience" :: concat eg
  ++ heading2 "Education" :: concat dg
  ++ heading2 "Projects" :: concat pg.

(** A group of paragraphs read as a block: its first paragraph and the rest. *)
Definition block_of (ps : list Paragraph) : Paragraph * list Paragraph :=
  (hd (plain "") ps, tl ps).

(** A group that [split_blocks opens] reads back as one block. *)
Definition opened_group (opens : Paragraph -> bool) (ps : list Paragraph) : Prop :=
  exists p rest, ps = p :: rest /\ opens p = true /\
                 Forall (fun q => opens q = false) rest.

(** The keys each kind of entry is read at. *)
Definition experience_keys : list string := ["title"; "company"; "dates"; "description"].
Definition education_keys : list string := ["degree"; "school"; "dates"; "description"].
Definition project_keys : list string := ["title"; "description"].

Definition has_keys (keys : list string) (d : gmap string string) : bool :=
  forallb (contains d) keys.

(** What the description paragraph shows for an outcome of the service. *)
Definition enrichment_text (o : outcome) : string :=
  match o with
  | Text t => t
  | Raise e => "Error summarizing experience: " +:+ e
  end.

(** [iterations B h l pss out]: running the loop over [l] from history [h]
    appended the groups [pss] to its accumulator, one per element, and emitted
    [out]; [B x h' ps o] relates each element to its group, the history it
    ran in and the events it emitted. *)
Inductive iterations {A X} (B : A -> list event -> list X -> list event -> Prop)
    : list event -> list A -> list (list X) -> list event -> Prop :=
  | iterations_nil h : iterations B h [] [] []
  | iterations_cons h x l ps pss o out :
      B x h ps o ->
      iterations B (h ++ o) l pss out ->
      iterations B h (x :: l) (ps :: pss) (o ++ out).

(** What one experience entry contributes. *)
Definition experience_block (service : list event -> string -> outcome)
    (exp : gmap string string) (h : list event)
    (ps : list Paragraph) (o : list event) : Prop :=
  exists t c ds desc,
    exp !! "title" = Some t /\ exp !! "company" = Some c /\
    exp !! "dates" = Some ds /\ exp !! "description" = Some desc /\
    ps = [heading3 t; plain (c +:+ " | " +:+ ds);
          plain (if truthy desc
                 then enrichment_text (service h (summarize_experience_prompt desc))
                 else desc)] /\
    o = if truthy desc then [GenerateContent (summarize_experience_prompt desc)] else [].

Definition education_block (edu : gmap string string) (h : list event)
    (ps : list Paragraph) (o : list event) : Prop :=
  exists dg sc ds desc,
    edu !! "degree" = Some dg /\ edu !! "school" = Some sc /\
    edu !! "dates" = Some ds /\ edu !! "description" = Some desc /\
    ps = [heading3 dg; plain (sc +:+ " | " +:+ ds); plain desc] /\ o = [].

Definition project_block (proj : gmap string string) (h : list event)
    (ps : list Paragraph) (o : list event) : Prop :=
  exists t desc,
    proj !! "title" = Some t /\ proj !! "description" = Some desc /\
    ps = [heading3 t; plain desc] /\ o = [].

(** ** Stubs of the external collaborators, for concrete runs *)

Definition stub_ok : list event -> string -> outcome := fun _ _ => Text "OK".

Definition stub_raises : list event -> string -> outcome :=
  fun _ _ => Raise "503 Service Unavailable".

Definition stub_urlparse : string -> option ParseResult := fun _ => None.

Definition stub_save : Document -> list ascii :=
  fun document => list_ascii_of_string (resume_text_of document).

Definition stub_qr : string -> list ascii := list_ascii_of_string.

Definition sample_experience : gmap string string :=
  <["description" := "Built data pipelines."]> (<["dates" := "2020-Present"]>
    (<["company" := "Example Corp"]> (<["title" := "Engineer"]> ∅))).

Definition sample_education : gmap string string :=
  <["description" := "Focus on AI."]> (<["dates" := "2018-2020"]>
    (<["school" := "Example University"]> (<["degree" := "MSc"]> ∅))).

Definition sample_project : gmap string string :=
  <["description" := "A resume generator."]> (<["title" := "SmartResume"]> ∅).

(** An experience entry as a caller may pass it, without a description. *)
Definition experience_without_description : gmap string string :=
  <["dates" := "2020-Present"]>
    (<["company" := "Example Corp"]> (<["title" := "Engineer"]> ∅)).

(** The calls to the service that one experience entry causes. *)
Definition experience_calls (exp : gmap string string) : list event :=
  match exp !! "description" with
  | Some desc =>
      if truthy desc then [GenerateContent (summarize_experience_prompt desc)]
      else []
  | None => []
  end.

(** The events of the form: widgets, headers, and the skill-suggestion
    calls and their display. *)
Definition form_event (ev : event) : bool :=
  match ev with
  | GenerateContent prompt =>
      startswith "Extract a list of relevant skills from the following job description:" prompt
  | StHeader _ | StSubheader _ | StWrite _ | StForm _ | StTextInput _
  | StTextArea _ | StNumberInput _ _ _ _ _ | StFormSubmitButton _ => true
  | StTitle _ | StError _ | StWarning _ | StSuccess _ | StMarkdown _ _
  | StImage _ _ => false
  end.

(** [returns m P Q]: from every history [m] returns normally, with a value
    satisfying [P], and emits only events satisfying [Q]. *)
Definition returns {A} (m : M A) (P : A -> Prop) (Q : event -> Prop) : Prop :=
  forall h, exists a out, m h = (Ok a, out) /\ P a /\ Forall Q out.

(** Widget values with every text empty, the button pressed. *)
Definition ui_blank : UI := {|
  ui_text_input := fun _ => "";
  ui_text_area := fun _ => "";
  ui_number_input := fun _ => 1;
  ui_form_submit_button := fun _ => true
|}.



Definition startup_error : string :=
  "Please set the GOOGLE_API_KEY environment variable.".


(** The prompts sent to the service, in order. *)
Definition service_calls (out : list event) : list string :=
  omap (fun ev => match ev with GenerateContent prompt => Some prompt | _ => None end) out.

(** The string a client function returns for an outcome of the service. *)
Definition text_or_error (err : string) (o : outcome) : string :=
  match o with
  | Text t => t
  | Raise e => err +:+ e
  end.

(** The prompts of the client functions (lines 40, 50, 59, 69, 79, 141, 151
    and 161). *)
Definition skills_suggestions_prompt (description : string) : string :=
  "Extract a list of relevant skills from the following job description:"
  +:+ nl +:+ nl +:+ description.





Definition profile_improvements_prompt (linkedin_data : linkedin_profile) : string :=
  "Based on the following LinkedIn profile data, suggest improvements to the profile to make it stronger based on industry best practices. Consider profile completeness, keyword usage, and showcasing accomplishments:"
  +:+ nl +:+ nl +:+ str_linkedin_data linkedin_data.



(** The entries the form builds from the widget values, by index (the
    dict literals of lines 240, 253 and 262). *)
Definition form_experience (ui : UI) (i : nat) : gmap string string :=
  <["description" := ui_text_area ui ("Description of Responsibilities #" +:+ str_nat (i + 1))]>
    (<["dates" := ui_text_input ui ("Dates (e.g., Jan 2020 - Present) #" +:+ str_nat (i + 1))]>
      (<["company" := ui_text_input ui ("Company #" +:+ str_nat (i + 1))]>
        (<["title" := ui_text_input ui ("Job Title #" +:+ str_nat (i + 1))]> ∅))).

Definition form_education (ui : UI) (i : nat) : gmap string string :=
  <["description" := ui_text_area ui ("Description of Studies/Achievements #" +:+ str_nat (i + 1))]>
    (<["dates" := ui_text_input ui ("Dates (e.g., Sep 2016 - May 2020) #" +:+ str_nat (i + 1))]>
      (<["school" := ui_text_input ui ("School #" +:+ str_nat (i + 1))]>
        (<["degree" := ui_text_input ui ("Degree #" +:+ str_nat (i + 1))]> ∅))).

Definition form_project (ui : UI) (i : nat) : gmap string string :=
  <["description" := ui_text_area ui ("Project Description #" +:+ str_nat (i + 1))]>
    (<["title" := ui_text_input ui ("Project Title #" +:+ str_nat (i + 1))]> ∅).

(** The characters base64 text is made of. *)
Definition b64_char (c : ascii) : bool :=
  contains_char c Base64.alphabet || Ascii.eqb c Base64.pad.

(** Widget values with the submit button not pressed. *)
Definition ui_idle : UI := {|
  ui_text_input := fun label => "<" +:+ label +:+ ">";
  ui_text_area := fun _ => "Python, SQL";
  ui_number_input := fun _ => 2;
  ui_form_submit_button := fun _ => false
|}.

(** An experience entry whose description was left empty. *)
Definition sample_experience_blank : gmap string string :=
  <["description" := ""]> (<["dates" := "2019"]>
    (<["company" := "Initech"]> (<["title" := "Intern"]> ∅))).

(** ** The monad *)

Lemma run_bind {A B} (m : M A) (f : A -> M B) (h : list event) :
  (m ≫= f) h =
  match m h with
  | (Ok a, out) => match f a (h ++ out) with (r, out') => (r, out ++ out') end
  | (Err e, out) => (Err e, out)
  end.
Proof. reflexivity. Qed.

Lemma run_ret {A} (a : A) (h : list event) : (mret a : M A) h = (Ok a, []).
Proof. reflexivity. Qed.

Lemma run_bind_ret {A B} (a : A) (f : A -> M B) (h : list event) :
  (mret a ≫= f) h = f a h.
Proof.
  rewrite run_bind, run_ret, app_nil_r. simpl. by destruct (f a h).
Qed.

Lemma run_getitem_Some d key v (h : list event) :
  d !! key = Some v -> getitem d key h = (Ok v, []).
Proof. intros E. unfold getitem. by rewrite E. Qed.

Lemma run_getitem_None d key (h : list event) :
  d !! key = None -> getitem d key h = (Err (KeyError key), []).
Proof. intros E. unfold getitem. by rewrite E. Qed.

Lemma contains_true d key : contains d key = true <-> is_Some (d !! key).
Proof. unfold contains. apply bool_decide_eq_true. Qed.

Lemma contains_false d key : contains d key = false <-> d !! key = None.
Proof.
  unfold contains. rewrite bool_decide_eq_false. symmetry. apply eq_None_not_Some.
Qed.

(** One [d[key]] step of a body, with the lookup among the hypotheses. *)
Ltac getitem_step :=
  rewrite run_bind;
  first [ erewrite run_getitem_Some by eassumption; rewrite app_nil_r
        | erewrite run_getitem_None by eassumption ].

Ltac getitem_step_in H :=
  rewrite run_bind in H;
  first [ erewrite run_getitem_Some in H by eassumption; rewrite app_nil_r in H
        | erewrite run_getitem_None in H by eassumption ].

(** ** Loops *)

Lemma for_each_iterations {A X} (body : A -> list X -> M (list X))
    (B : A -> list event -> list X -> list event -> Prop) :
  (forall x d h d' o, body x d h = (Ok d', o) -> exists ps, d' = d ++ ps /\ B x h ps o) ->
  forall l d h d' out,
    for_each l body d h = (Ok d', out) ->
    exists pss, d' = d ++ concat pss /\ iterations B h l pss out.
Proof.
  intros Hbody l. induction l as [|x l IH]; intros d h d' out Hrun.
  - simpl in Hrun. rewrite run_ret in Hrun. injection Hrun as <- <-.
    exists []. split; [by rewrite app_nil_r | constructor].
  - simpl in Hrun. rewrite run_bind in Hrun.
    destruct (body x d h) as [[d1|e] o] eqn:Hx; [|discriminate].
    destruct (for_each l body d1 (h ++ o)) as [r out'] eqn:Hl.
    injection Hrun as -> <-.
    destruct (Hbody _ _ _ _ _ Hx) as (ps & -> & HB).
    destruct (IH _ _ _ _ Hl) as (pss & -> & Hit).
    exists (ps :: pss). split; [by rewrite <- app_assoc | by constructor].
Qed.


Lemma iterations_length {A X} (B : A -> _) h (l : list A) (pss : list (list X)) out :
  iterations B h l pss out -> length pss = length l.
Proof. induction 1; simpl; congruence. Qed.

(** The [i]-th iteration ran after a prefix [pre] of the emitted events. *)
Lemma iterations_lookup {A X} (B : A -> _) h (l : list A) (pss : list (list X)) out i x :
  iterations B h l pss out ->
  l !! i = Some x ->
  exists ps pre o post,
    pss !! i = Some ps /\ out = pre ++ o ++ post /\ B x (h ++ pre) ps o.
Proof.
  intros Hit. revert i. induction Hit as [|h y l ps pss o out HB Hit IH]; intros i Hi.
  - discriminate.
  - destruct i as [|i]; simpl in Hi.
    + injection Hi as ->. exists ps, [], o, out.
      by rewrite app_nil_r.
    + destruct (IH i Hi) as (ps' & pre & o' & post & E1 & -> & HB').
      exists ps', (o ++ pre), o', post. rewrite <- !app_assoc.
      rewrite <- app_assoc in HB'. done.
Qed.

(** ** The enrichment client *)

Section Client.

Variable service : list event -> string -> outcome.

(** One call: the text on success, the error string on failure. *)
Lemma run_try_generate (prompt err : string) (h : list event) :
  try_except
    (response_text ← model_generate_content service prompt; mret response_text)
    (fun e => mret (err +:+ str_exn e)) h
  = (Ok (match service h prompt with
         | Text t => t
         | Raise e => err +:+ e
         end), [GenerateContent prompt]).
Proof.
  unfold try_except. rewrite run_bind. unfold model_generate_content.
  destruct (service h prompt) as [t|e]; reflexivity.
Qed.

Lemma run_summarize_experience (description : string) (h : list event) :
  summarize_experience service description h
  = (Ok (enrichment_text (service h (summarize_experience_prompt description))),
     [GenerateContent (summarize_experience_prompt description)]).
Proof.
  unfold summarize_experience. rewrite run_try_generate.
  by destruct (service h _).
Qed.

End Client.

(** ** One iteration of each loop of [generate_resume] *)

Section Bodies.

Variable service : list event -> string -> outcome.

Lemma run_experience_body exp d h t c ds desc :
  exp !! "title" = Some t -> exp !! "company" = Some c ->
  exp !! "dates" = Some ds -> exp !! "description" = Some desc ->
  experience_body service exp d h
  = (Ok (d ++ [heading3 t; plain (c +:+ " | " +:+ ds);
               plain (if truthy desc
                      then enrichment_text (service h (summarize_experience_prompt desc))
                      else desc)]),
     if truthy desc then [GenerateContent (summarize_experience_prompt desc)] else []).
Proof.
  intros Ht Hc Hds Hdesc. unfold experience_body.
  rewrite run_bind, (run_getitem_Some _ _ _ _ Ht), app_nil_r.
  rewrite run_bind, (run_getitem_Some _ _ _ _ Hc), app_nil_r.
  rewrite run_bind, (run_getitem_Some _ _ _ _ Hds), app_nil_r.
  assert (contains exp "description" = true) as ->
    by (apply contains_true; eauto).
  rewrite !run_bind, (run_getitem_Some _ _ _ _ Hdesc), !app_nil_r, run_ret.
  simpl. rewrite app_nil_r. unfold add_paragraph. rewrite <- !app_assoc. simpl.
  destruct (truthy desc).
  - rewrite run_bind, (run_getitem_Some _ _ _ _ Hdesc), app_nil_r.
    rewrite run_bind, run_summarize_experience, run_ret. simpl.
    by rewrite <- !app_assoc.
  - rewrite run_bind, (run_getitem_Some _ _ _ _ Hdesc), app_nil_r, run_ret.
    simpl. by rewrite <- !app_assoc.
Qed.

(** A missing key makes the iteration raise [KeyError]. *)
Lemma run_experience_body_no_description exp d h t c ds :
  exp !! "title" = Some t -> exp !! "company" = Some c ->
  exp !! "dates" = Some ds -> exp !! "description" = None ->
  experience_body service exp d h = (Err (KeyError "description"), []).
Proof.
  intros Ht Hc Hds Hdesc. unfold experience_body.
  rewrite run_bind, (run_getitem_Some _ _ _ _ Ht), app_nil_r.
  rewrite run_bind, (run_getitem_Some _ _ _ _ Hc), app_nil_r.
  rewrite run_bind, (run_getitem_Some _ _ _ _ Hds), app_nil_r.
  assert (contains exp "description" = false) as ->
    by (by apply contains_false).
  rewrite run_bind, run_ret, app_nil_r.
  rewrite run_bind, (run_getitem_None _ _ _ Hdesc). reflexivity.
Qed.

Lemma experience_body_block exp d h d' o :
  experience_body service exp d h = (Ok d', o) ->
  exists ps, d' = d ++ ps /\ experience_block service exp h ps o.
Proof.
  intros Hrun.
  destruct (exp !! "title") as [t|] eqn:Ht; cycle 1.
  { unfold experience_body in Hrun.
    by rewrite run_bind, (run_getitem_None _ _ _ Ht) in Hrun. }
  destruct (exp !! "company") as [c|] eqn:Hc; cycle 1.
  { unfold experience_body in Hrun.
    rewrite run_bind, (run_getitem_Some _ _ _ _ Ht), app_nil_r in Hrun.
    by rewrite run_bind, (run_getitem_None _ _ _ Hc) in Hrun. }
  destruct (exp !! "dates") as [ds|] eqn:Hds; cycle 1.
  { unfold experience_body in Hrun.
    rewrite run_bind, (run_getitem_Some _ _ _ _ Ht), app_nil_r in Hrun.
    rewrite run_bind, (run_getitem_Some _ _ _ _ Hc), app_nil_r in Hrun.
    by rewrite run_bind, (run_getitem_None _ _ _ Hds) in Hrun. }
  destruct (exp !! "description") as [desc|] eqn:Hdesc; cycle 1.
  { by rewrite (run_experience_body_no_description _ _ _ _ _ _ Ht Hc Hds Hdesc) in Hrun. }
  rewrite (run_experience_body _ _ _ _ _ _ _ Ht Hc Hds Hdesc) in Hrun.
  injection Hrun as <- <-. eexists. split; [reflexivity|].
  by exists t, c, ds, desc.
Qed.

Lemma run_education_body edu d h dg sc ds desc :
  edu !! "degree" = Some dg -> edu !! "school" = Some sc ->
  edu !! "dates" = Some ds -> edu !! "description" = Some desc ->
  education_body edu d h
  = (Ok (d ++ [heading3 dg; plain (sc +:+ " | " +:+ ds); plain desc]), []).
Proof.
  intros Hdg Hsc Hds Hdesc. unfold education_body.
  repeat getitem_step. rewrite run_ret.
  unfold add_paragraph. by rewrite <- !app_assoc.
Qed.

Lemma education_body_block edu d h d' o :
  education_body edu d h = (Ok d', o) ->
  exists ps, d' = d ++ ps /\ education_block edu h ps o.
Proof.
  intros Hrun.
  destruct (edu !! "degree") as [dg|] eqn:Hdg; cycle 1.
  { unfold education_body in Hrun. by repeat getitem_step_in Hrun. }
  destruct (edu !! "school") as [sc|] eqn:Hsc; cycle 1.
  { unfold education_body in Hrun. by repeat getitem_step_in Hrun. }
  destruct (edu !! "dates") as [ds|] eqn:Hds; cycle 1.
  { unfold education_body in Hrun. by repeat getitem_step_in Hrun. }
  destruct (edu !! "description") as [desc|] eqn:Hdesc; cycle 1.
  { unfold education_body in Hrun. by repeat getitem_step_in Hrun. }
  rewrite (run_education_body _ _ _ _ _ _ _ Hdg Hsc Hds Hdesc) in Hrun.
  injection Hrun as <- <-. eexists. split; [reflexivity|].
  by exists dg, sc, ds, desc.
Qed.

Lemma run_project_body proj d h t desc :
  proj !! "title" = Some t -> proj !! "description" = Some desc ->
  project_body proj d h = (Ok (d ++ [heading3 t; plain desc]), []).
Proof.
  intros Ht Hdesc. unfold project_body.
  repeat getitem_step. rewrite run_ret.
  unfold add_paragraph. by rewrite <- !app_assoc.
Qed.

Lemma project_body_block proj d h d' o :
  project_body proj d h = (Ok d', o) ->
  exists ps, d' = d ++ ps /\ project_block proj h ps o.
Proof.
  intros Hrun.
  destruct (proj !! "title") as [t|] eqn:Ht; cycle 1.
  { unfold project_body in Hrun. by repeat getitem_step_in Hrun. }
  destruct (proj !! "description") as [desc|] eqn:Hdesc; cycle 1.
  { unfold project_body in Hrun. by repeat getitem_step_in Hrun. }
  rewrite (run_project_body _ _ _ _ _ Ht Hdesc) in Hrun.
  injection Hrun as <- <-. eexists. split; [reflexivity|].
  by exists t, desc.
Qed.

(** The skills loop is pure: one bullet per token. *)
Lemma run_skills_loop (l : list string) (d : Document) (h : list event) :
  for_each l skill_body d h = (Ok (d ++ map bullet (map strip l)), []).
Proof.
  revert d h. induction l as [|t l IH]; intros d h; simpl.
  - by rewrite run_ret, app_nil_r.
  - rewrite run_bind. unfold skill_body at 1. rewrite run_ret, app_nil_r, IH.
    unfold add_paragraph. by rewrite <- app_assoc.
Qed.

End Bodies.

(** ** Reading blocks back *)

Lemma split_blocks_app_plain opens (l r : list Paragraph) :
  Forall (fun q => opens q = false) l ->
  split_blocks opens (l ++ r)
  = (l ++ (split_blocks opens r).1, (split_blocks opens r).2).
Proof.
  induction 1 as [|p l Hp Hl IH]; simpl.
  - by destruct (split_blocks opens r).
  - rewrite IH, Hp. reflexivity.
Qed.

Lemma split_blocks_cons_open opens (p : Paragraph) (r : list Paragraph) :
  opens p = true ->
  split_blocks opens (p :: r)
  = ([], (p, (split_blocks opens r).1) :: (split_blocks opens r).2).
Proof. intros Hp. simpl. destruct (split_blocks opens r). by rewrite Hp. Qed.

Lemma split_blocks_groups opens (pss : list (list Paragraph)) :
  Forall (opened_group opens) pss ->
  split_blocks opens (concat pss) = ([], map block_of pss).
Proof.
  induction 1 as [|ps pss (p & rest & -> & Hp & Hrest) Hpss IH]; [done|].
  change (concat ((p :: rest) :: pss)) with (p :: (rest ++ concat pss)).
  rewrite split_blocks_cons_open by done.
  rewrite split_blocks_app_plain by done. rewrite IH. simpl.
  by rewrite app_nil_r.
Qed.

(** The groups of the three loops are blocks opened by their "Heading 3"
    paragraph, and hold no section heading. *)
Lemma experience_block_group service exp h ps o :
  experience_block service exp h ps o ->
  opened_group is_entry_heading ps /\
  Forall (fun q => is_section_heading q = false) ps /\ length ps = 3.
Proof.
  intros (t & c & ds & desc & _ & _ & _ & _ & -> & _).
  split; [|split; [|done]].
  - eexists _, _. split; [reflexivity|]. split; [done|]. by repeat constructor.
  - by repeat constructor.
Qed.

Lemma education_block_group edu h ps o :
  education_block edu h ps o ->
  opened_group is_entry_heading ps /\
  Forall (fun q => is_section_heading q = false) ps /\ length ps = 3.
Proof.
  intros (dg & sc & ds & desc & _ & _ & _ & _ & -> & _).
  split; [|split; [|done]].
  - eexists _, _. split; [reflexivity|]. split; [done|]. by repeat constructor.
  - by repeat constructor.
Qed.

Lemma project_block_group proj h ps o :
  project_block proj h ps o ->
  opened_group is_entry_heading ps /\
  Forall (fun q => is_section_heading q = false) ps /\ length ps = 2.
Proof.
  intros (t & desc & _ & _ & -> & _).
  split; [|split; [|done]].
  - eexists _, _. split; [reflexivity|]. split; [done|]. by repeat constructor.
  - by repeat constructor.
Qed.

Lemma iterations_groups {A} (B : A -> _) (n : nat) h (l : list A) pss out :
  (forall x h ps o, B x h ps o ->
     opened_group is_entry_heading ps /\
     Forall (fun q => is_section_heading q = false) ps /\ length ps = n) ->
  iterations B h l pss out ->
  Forall (opened_group is_entry_heading) pss /\
  Forall (fun q => is_section_heading q = false) (concat pss) /\
  Forall (fun ps => length ps = n) pss.
Proof.
  intros HB. induction 1 as [|h x l ps pss o out Hx Hit (IH1 & IH2 & IH3)].
  - by repeat constructor.
  - destruct (HB _ _ _ _ Hx) as (G1 & G2 & G3).
    split; [by constructor|]. split; [|by constructor].
    simpl. by apply Forall_app.
Qed.

Lemma iterations_silent {A X} (B : A -> _) h (l : list A) (pss : list (list X)) out :
  (forall x h ps o, B x h ps o -> o = []) ->
  iterations B h l pss out -> out = [].
Proof.
  intros HB. induction 1 as [|h x l ps pss o out Hx Hit IH]; [done|].
  by rewrite (HB _ _ _ _ Hx), IH.
Qed.

Lemma education_block_silent edu h ps o : education_block edu h ps o -> o = [].
Proof. by intros (? & ? & ? & ? & _ & _ & _ & _ & _ & ->). Qed.

Lemma project_block_silent proj h ps o : project_block proj h ps o -> o = [].
Proof. by intros (? & ? & _ & _ & _ & ->). Qed.

(** ** [generate_resume]: the paragraphs it builds *)

Lemma generate_resume_run service name email phone linkedin github skills
    experience education projects h doc out :
  generate_resume service name email phone linkedin github skills
    experience education projects h = (Ok doc, out) ->
  exists eg dg pg,
    doc = resume_layout name email phone linkedin github skills eg dg pg /\
    iterations (experience_block service) h experience eg out /\
    iterations education_block (h ++ out) education dg [] /\
    iterations project_block (h ++ out) projects pg [].
Proof.
  unfold generate_resume. intros Hrun.
  rewrite run_bind, run_skills_loop, app_nil_r in Hrun.
  rewrite run_bind in Hrun.
  destruct (for_each experience _ _ h) as [[d1|e] o1] eqn:H1; [|discriminate].
  rewrite run_bind in Hrun.
  destruct (for_each education _ _ (h ++ o1)) as [[d2|e] o2] eqn:H2; [|discriminate].
  rewrite run_bind in Hrun.
  destruct (for_each projects _ _ _) as [[d3|e] o3] eqn:H3; [|discriminate].
  rewrite run_ret in Hrun. injection Hrun as <- <-.
  destruct (for_each_iterations _ _ (experience_body_block service) _ _ _ _ _ H1)
    as (eg & -> & He).
  destruct (for_each_iterations _ _ education_body_block _ _ _ _ _ H2)
    as (dg & -> & Hd).
  destruct (for_each_iterations _ _ project_body_block _ _ _ _ _ H3)
    as (pg & -> & Hp).
  pose proof (iterations_silent _ _ _ _ _ education_block_silent Hd) as ->.
  pose proof (iterations_silent _ _ _ _ _ project_block_silent Hp) as ->.
  rewrite !app_nil_r in *. simpl.
  exists eg, dg, pg. split; [|done].
  unfold resume_layout, add_heading, add_paragraph, Document_new. simpl.
  by rewrite <- !app_assoc.
Qed.






Lemma split_blocks_block opens (p : Paragraph) (body r : list Paragraph) :
  opens p = true ->
  Forall (fun q => opens q = false) body ->
  (split_blocks opens r).1 = [] ->
  split_blocks opens (p :: body ++ r) = ([], (p, body) :: (split_blocks opens r).2).
Proof.
  intros Hp Hbody Hr.
  rewrite split_blocks_cons_open, split_blocks_app_plain by done.
  simpl. by rewrite Hr, app_nil_r.
Qed.

Lemma bullets_no_heading (l : list string) :
  Forall (fun q => is_section_heading q = false) (map bullet l).
Proof. induction l; by constructor. Qed.

(** The five sections of a resume, read back from its paragraphs. *)
Lemma resume_layout_sections name email phone linkedin github skills eg dg pg :
  Forall (fun q => is_section_heading q = false) (concat eg) ->
  Forall (fun q => is_section_heading q = false) (concat dg) ->
  Forall (fun q => is_section_heading q = false) (concat pg) ->
  split_blocks is_section_heading
    (resume_layout name email phone linkedin github skills eg dg pg)
  = ([], [(heading1 name, [plain (header_info email phone linkedin github)]);
          (heading2 "Skills", map bullet (map strip (split ","%char skills)));
          (heading2 "Experience", concat eg);
          (heading2 "Education", concat dg);
          (heading2 "Projects", concat pg)]).
Proof.
  intros He Hd Hp. unfold resume_layout.
  rewrite <- (app_nil_r (concat pg)) at 1.
  change (heading1 name :: plain ?c :: ?r) with (heading1 name :: [plain c] ++ r).
  assert (forall body, Forall (fun q => is_section_heading q = false) body ->
          split_blocks is_section_heading (heading2 "Projects" :: body ++ [])
          = ([], [(heading2 "Projects", body)])) as E4.
  { intros body Hb. by rewrite split_blocks_block. }
  rewrite split_blocks_block; [|done|by repeat constructor|].
  2:{ by rewrite split_blocks_cons_open. }
  rewrite split_blocks_block; [|done|apply bullets_no_heading|].
  2:{ by rewrite split_blocks_cons_open. }
  rewrite split_blocks_block; [|done|done|].
  2:{ by rewrite split_blocks_cons_open. }
  rewrite split_blocks_block; [|done|done|].
  2:{ by rewrite split_blocks_cons_open. }
  by rewrite E4.
Qed.

(** The sub-blocks of a repeated-entry section: one per entry. *)
Lemma iterations_sub_blocks {A} (B : A -> _) (n : nat) h (l : list A) pss out :
  (forall x h ps o, B x h ps o ->
     opened_group is_entry_heading ps /\
     Forall (fun q => is_section_heading q = false) ps /\ length ps = S n) ->
  iterations B h l pss out ->
  Forall (fun q => is_section_heading q = false) (concat pss) /\
  split_blocks is_entry_heading (concat pss) = ([], map block_of pss) /\
  length (map block_of pss) = length l /\
  Forall (fun b => length b.2 = n) (map block_of pss).
Proof.
  intros HB Hit.
  destruct (iterations_groups B (S n) _ _ _ _ HB Hit) as (G1 & G2 & G3).
  split; [done|]. split; [by apply split_blocks_groups|].
  split; [by rewrite length_map, (iterations_length _ _ _ _ _ Hit)|].
  clear -G3. induction G3 as [|ps pss Hps _ IH]; simpl; constructor; [|done].
  destruct ps; simpl in *; congruence.
Qed.

(** ** Section order and sub-block counts *)




(** ** [split] and [strip] *)

Lemma append_cons (c : ascii) (s t : string) : String c s +:+ t = String c (s +:+ t).
Proof. reflexivity. Qed.

Lemma append_nil_l (t : string) : "" +:+ t = t.
Proof. reflexivity. Qed.

Lemma split_nonempty sep s : split sep s <> [].
Proof.
  destruct s as [|c s]; simpl; [done|].
  destruct (Ascii.eqb c sep); [done|]. by destruct (split sep s).
Qed.

(** One token more than separators: empty tokens are kept. *)
Lemma split_length sep s : length (split sep s) = S (count_char sep s).
Proof.
  induction s as [|c s IH]; simpl; [done|].
  destruct (Ascii.eqb c sep); simpl; [by rewrite IH|].
  pose proof (split_nonempty sep s).
  destruct (split sep s); simpl in *; congruence.
Qed.



Lemma lstrip_spec s :
  exists l, s = l +:+ lstrip s /\ all_space l = true /\
            starts_space (lstrip s) = false.
Proof.
  induction s as [|c s (l & E & Hl & Hs)]; simpl.
  - by exists "".
  - destruct (isspace c) eqn:Hc.
    + exists (String c l). rewrite append_cons, <- E. simpl. by rewrite Hc.
    + exists "". simpl. by rewrite Hc.
Qed.

Lemma rstrip_spec s :
  exists r, s = rstrip s +:+ r /\ all_space r = true /\
            ends_space (rstrip s) = false.
Proof.
  induction s as [|c s (r & E & Hr & Hs)]; simpl.
  - by exists "".
  - destruct (rstrip s) as [|a t] eqn:Ht.
    + rewrite append_nil_l in E. subst r.
      destruct (isspace c) eqn:Hc.
      * exists (String c s). simpl. by rewrite Hc.
      * exists s. simpl. by rewrite Hc.
    + exists r. by rewrite append_cons, <- E.
Qed.

Lemma rstrip_starts s : starts_space s = false -> starts_space (rstrip s) = false.
Proof.
  destruct s as [|c s]; simpl; [done|]. intros Hc.
  destruct (rstrip s); [by rewrite Hc|done].
Qed.

(** [strip] removes exactly the surrounding whitespace. *)
Lemma strip_spec s :
  exists l r, s = l +:+ strip s +:+ r /\ all_space l = true /\ all_space r = true /\
              starts_space (strip s) = false /\ ends_space (strip s) = false.
Proof.
  destruct (lstrip_spec s) as (l & E1 & Hl & Hs).
  destruct (rstrip_spec (lstrip s)) as (r & E2 & Hr & He).
  exists l, r. unfold strip. rewrite <- E2, <- E1.
  split; [done|]. split; [done|]. split; [done|]. split; [|done].
  by apply rstrip_starts.
Qed.

(** ** The Skills section *)



(** ** The description paragraph of an experience entry *)

Lemma lookup_map {A B} (f : A -> B) (l : list A) (i : nat) :
  map f l !! i = f <$> l !! i.
Proof.
  revert i. induction l as [|x l IH]; intros [|i]; simpl; by auto.
Qed.

Lemma truthy_true s : s <> "" -> truthy s = true.
Proof. by destruct s. Qed.



(** With a service that always raises, the document is still complete and
    the description paragraph is the error string. *)
Example generate_resume_stub_raises :
  generate_resume stub_raises "Ada" "ada@example.org" "555" "in/ada" "ada"
    "Python, SQL" [sample_experience] [] [] []
  = (Ok [heading1 "Ada";
         plain "ada@example.org | 555 | [LinkedIn](in/ada) | [GitHub](ada)";
         heading2 "Skills"; bullet "Python"; bullet "SQL";
         heading2 "Experience"; heading3 "Engineer";
         plain "Example Corp | 2020-Present";
         plain "Error summarizing experience: 503 Service Unavailable";
         heading2 "Education"; heading2 "Projects"],
     [GenerateContent (summarize_experience_prompt "Built data pipelines.")]).
Proof. vm_compute. reflexivity. Qed.

(** ** The enrichment client never raises *)

(** C3. Each of the nine client functions returns a string for every
    payload and every behaviour of the service: the response text when the
    call succeeds, and its own error message followed by the text of the
    exception when the call raises.  The result is [Ok] with a string in
    both cases. *)
Theorem enrichment_client_returns_string service h :
  (forall description, exists prompt,
     summarize_experience service description h
     = (Ok (match service h prompt with
            | Text t => t
            | Raise e => "Error summarizing experience: " +:+ e
            end), [GenerateContent prompt])) /\
  (forall description, exists prompt,
     generate_skills_suggestions service description h
     = (Ok (match service h prompt with
            | Text t => t
            | Raise e => "Error generating skills: " +:+ e
            end), [GenerateContent prompt])) /\
  (forall name job_description, exists prompt,
     generate_cover_letter service name job_description h
     = (Ok (match service h prompt with
            | Text t => t
            | Raise e => "Error generating cover letter: " +:+ e
            end), [GenerateContent prompt])) /\
  (forall job_description skills, exists prompt,
     suggest_improvements service job_description skills h
     = (Ok (match service h prompt with
            | Text t => t
            | Raise e => "Error generating suggestions: " +:+ e
            end), [GenerateContent prompt])) /\
  (forall job_description, exists prompt,
     extract_skills_qualifications service job_description h
     = (Ok (match service h prompt with
            | Text t => t
            | Raise e => "Error extracting skills and qualifications: " +:+ e
            end), [GenerateContent prompt])) /\
  (forall user_skills extracted_skills, exists prompt,
     highlight_missing_skills service user_skills extracted_skills h
     = (Ok (match service h prompt with
            | Text t => t
            | Raise e => "Error highlighting missing skills: " +:+ e
            end), [GenerateContent prompt])) /\
  (forall linkedin_data, exists prompt,
     suggest_profile_improvements service linkedin_data h
     = (Ok (match service h prompt with
            | Text t => t
            | Raise e => "Error suggesting profile improvements: " +:+ e
            end), [GenerateContent prompt])) /\
  (forall resume_content, exists prompt,
     generate_interview_questions service resume_content h
     = (Ok (match service h prompt with
            | Text t => t
            | Raise e => "Error generating interview questions: " +:+ e
            end), [GenerateContent prompt])) /\
  (forall resume_content, exists prompt,
     analyze_strengths_weaknesses service resume_content h
     = (Ok (match service h prompt with
            | Text t => t
            | Raise e => "Error analyzing strengths and weaknesses: " +:+ e
            end), [GenerateContent prompt])).
Proof.
  repeat split; intros; eexists; apply run_try_generate.
Qed.

(** ** A missing description *)

(** X1. The calls [generate_resume] makes: one summarising call per
    experience entry with a non-empty description, in order, and nothing
    else; education and project descriptions are never sent to the
    service. *)
Lemma generate_resume_calls service name email phone linkedin github skills
    experience education projects h doc out :
  generate_resume service name email phone linkedin github skills
    experience education projects h = (Ok doc, out) ->
  out = concat (map experience_calls experience).
Proof.
  intros Hrun.
  destruct (generate_resume_run _ _ _ _ _ _ _ _ _ _ _ _ _ Hrun)
    as (eg & dg & pg & _ & Hie & _).
  clear -Hie. induction Hie as [|h x l ps pss o out Hx _ IH]; [done|].
  simpl. rewrite <- IH. f_equal.
  destruct Hx as (t & c & ds & desc & _ & _ & _ & Hdesc & _ & ->).
  unfold experience_calls. by rewrite Hdesc.
Qed.

(** An entry whose description is the empty string: no call, and the empty
    string as the description paragraph. *)
Lemma experience_body_empty_description service exp d h t c ds :
  exp !! "title" = Some t -> exp !! "company" = Some c ->
  exp !! "dates" = Some ds -> exp !! "description" = Some "" ->
  experience_body service exp d h
  = (Ok (d ++ [heading3 t; plain (c +:+ " | " +:+ ds); plain ""]), []).
Proof. intros Ht Hc Hds Hdesc. by rewrite (run_experience_body _ _ _ _ _ _ _ _ Ht Hc Hds Hdesc). Qed.

(** C10, at an entry without the "description" key: the guard
    ['description' in exp] is false, the [else] branch indexes the missing
    key, and [generate_resume] raises [KeyError] instead of returning a
    document; no call to the service was made. *)
Theorem generate_resume_missing_description service name email phone linkedin
    github skills h :
  contains experience_without_description "description" = false /\
  generate_resume service name email phone linkedin github skills
    [experience_without_description] [] [] h
  = (Err (KeyError "description"), []).
Proof.
  split; [done|].
  unfold generate_resume. rewrite run_bind, run_skills_loop, app_nil_r.
  rewrite run_bind. simpl for_each. rewrite run_bind.
  by rewrite run_experience_body_no_description
    with (t := "Engineer") (c := "Example Corp") (ds := "2020-Present").
Qed.

(** ** base64 round trip *)

Lemma decode_encode_sextet (b5 b4 b3 b2 b1 b0 : bool) :
  Base64.decode_sextet (Base64.encode_sextet (b5, b4, b3, b2, b1, b0))
  = Some (b5, b4, b3, b2, b1, b0).
Proof. destruct b5, b4, b3, b2, b1, b0; reflexivity. Qed.

Lemma encode_sextet_not_pad (b5 b4 b3 b2 b1 b0 : bool) :
  Ascii.eqb (Base64.encode_sextet (b5, b4, b3, b2, b1, b0)) Base64.pad = false.
Proof. destruct b5, b4, b3, b2, b1, b0; reflexivity. Qed.

Lemma list_ind3 {A} (P : list A -> Prop) :
  P [] -> (forall a, P [a]) -> (forall a b, P [a; b]) ->
  (forall a b c l, P l -> P (a :: b :: c :: l)) ->
  forall l, P l.
Proof.
  intros H0 H1 H2 H3.
  assert (forall l, P l /\ (forall a, P (a :: l)) /\ (forall a b, P (a :: b :: l)))
    as H; [|intros l; apply H].
  induction l as [|x l (IHa & IHb & IHc)]; [by auto|].
  split; [by apply IHb|]. split; [by intros; apply IHc|].
  intros a b. by apply H3.
Qed.

Lemma b64decode_b64encode (bs : list ascii) :
  Base64.b64decode (Base64.b64encode bs) = Some bs.
Proof.
  induction bs as [|a|a b|a b c l IH] using list_ind3.
  - reflexivity.
  - destruct a as [a0 a1 a2 a3 a4 a5 a6 a7].
    cbn [Base64.b64encode Base64.b64decode].
    rewrite (decode_encode_sextet a7 a6 a5 a4 a3 a2). cbn [mbind option_bind].
    rewrite (decode_encode_sextet a1 a0 false false false false).
    reflexivity.
  - destruct a as [a0 a1 a2 a3 a4 a5 a6 a7], b as [b0 b1 b2 b3 b4 b5 b6 b7].
    cbn [Base64.b64encode Base64.b64decode].
    rewrite (decode_encode_sextet a7 a6 a5 a4 a3 a2). cbn [mbind option_bind].
    rewrite (decode_encode_sextet a1 a0 b7 b6 b5 b4). cbn [mbind option_bind].
    rewrite (encode_sextet_not_pad b3 b2 b1 b0 false false).
    rewrite (decode_encode_sextet b3 b2 b1 b0 false false).
    reflexivity.
  - destruct a as [a0 a1 a2 a3 a4 a5 a6 a7], b as [b0 b1 b2 b3 b4 b5 b6 b7],
             c as [c0 c1 c2 c3 c4 c5 c6 c7].
    cbn [Base64.b64encode Base64.b64decode].
    rewrite (decode_encode_sextet a7 a6 a5 a4 a3 a2). cbn [mbind option_bind].
    rewrite (decode_encode_sextet a1 a0 b7 b6 b5 b4). cbn [mbind option_bind].
    rewrite (encode_sextet_not_pad b3 b2 b1 b0 c7 c6).
    rewrite (decode_encode_sextet b3 b2 b1 b0 c7 c6). cbn [mbind option_bind].
    rewrite (encode_sextet_not_pad c5 c4 c3 c2 c1 c0).
    rewrite (decode_encode_sextet c5 c4 c3 c2 c1 c0). cbn [mbind option_bind].
    rewrite IH. reflexivity.
Qed.

(** C5. Decoding the base64 text that the script puts in the download link
    gives back the serialized document, byte for byte, whatever the
    serializer produced. *)
Theorem export_base64_roundtrip (docx_save : Document -> list ascii)
    (document : Document) :
  Base64.b64decode (Base64.b64encode (docx_save document))
  = Some (docx_save document).
Proof. apply b64decode_b64encode. Qed.
(** ** Computations that always return *)

Lemma returns_ret {A} (a : A) (P : A -> Prop) Q : P a -> returns (mret a) P Q.
Proof. intros Ha h. exists a, []. by rewrite run_ret. Qed.

Lemma returns_bind {A B} (m : M A) (f : A -> M B) (P : A -> Prop) (P' : B -> Prop) Q :
  returns m P Q -> (forall a, P a -> returns (f a) P' Q) ->
  returns (m ≫= f) P' Q.
Proof.
  intros Hm Hf h.
  destruct (Hm h) as (a & o & E & Ha & Ho).
  destruct (Hf a Ha (h ++ o)) as (b & o' & E' & Hb & Ho').
  exists b, (o ++ o'). rewrite run_bind, E, E'.
  split; [done|]. split; [done|]. by apply Forall_app.
Qed.

Lemma returns_emit ev (Q : event -> Prop) : Q ev -> returns (emit ev) (fun _ => True) Q.
Proof. intros Hev h. exists (), [ev]. by repeat constructor. Qed.

Lemma returns_for_each {A S} (l : list A) (body : A -> S -> M S) (I : S -> Prop) Q s :
  (forall x s, I s -> returns (body x s) I Q) -> I s ->
  returns (for_each l body s) I Q.
Proof.
  intros Hbody. revert s. induction l as [|x l IH]; intros s Hs; simpl.
  - by apply returns_ret.
  - eapply returns_bind; [by apply Hbody|]. intros s' Hs'. by apply IH.
Qed.

Lemma returns_try_generate service prompt err (Q : event -> Prop) :
  Q (GenerateContent prompt) ->
  returns (try_except
             (response_text ← model_generate_content service prompt; mret response_text)
             (fun e => mret (err +:+ str_exn e)))
          (fun _ => True) Q.
Proof.
  intros HQ h. eexists _, _. rewrite run_try_generate. by repeat constructor.
Qed.

Section Form.

Variable service : list event -> string -> outcome.
Variable ui : UI.

Let Q (ev : event) : Prop := form_event ev = true.

Lemma returns_text_input label :
  returns (st_text_input ui label) (fun v => v = ui_text_input ui label) Q.
Proof. intros h. eexists _, _. by repeat constructor. Qed.

Lemma returns_text_area label :
  returns (st_text_area ui label) (fun v => v = ui_text_area ui label) Q.
Proof. intros h. eexists _, _. by repeat constructor. Qed.

Lemma returns_number_input label lo hi value step :
  returns (st_number_input ui label lo hi value step) (fun _ => True) Q.
Proof. intros h. eexists _, _. by repeat constructor. Qed.

Lemma returns_form_submit_button label :
  returns (st_form_submit_button ui label)
          (fun v => v = ui_form_submit_button ui label) Q.
Proof. intros h. eexists _, _. by repeat constructor. Qed.

Lemma returns_experience_form i acc :
  Forall (fun d => has_keys experience_keys d = true) acc ->
  returns (experience_form service ui i acc)
          (Forall (fun d => has_keys experience_keys d = true)) Q.
Proof.
  intros Hacc. unfold experience_form.
  eapply returns_bind; [by apply returns_emit|]. intros _ _.
  eapply returns_bind; [apply returns_text_input|]. intros title _.
  eapply returns_bind; [apply returns_text_input|]. intros company _.
  eapply returns_bind; [apply returns_text_input|]. intros dates _.
  eapply returns_bind; [apply returns_text_area|]. intros description _.
  eapply returns_bind; [by apply returns_try_generate|]. intros suggestions _.
  eapply returns_bind; [by apply returns_emit|]. intros _ _.
  apply returns_ret. apply Forall_app. split; [done|]. by repeat constructor.
Qed.

Lemma returns_education_form i acc :
  Forall (fun d => has_keys education_keys d = true) acc ->
  returns (education_form ui i acc)
          (Forall (fun d => has_keys education_keys d = true)) Q.
Proof.
  intros Hacc. unfold education_form.
  eapply returns_bind; [by apply returns_emit|]. intros _ _.
  eapply returns_bind; [apply returns_text_input|]. intros degree _.
  eapply returns_bind; [apply returns_text_input|]. intros school _.
  eapply returns_bind; [apply returns_text_input|]. intros dates _.
  eapply returns_bind; [apply returns_text_area|]. intros description _.
  apply returns_ret. apply Forall_app. split; [done|]. by repeat constructor.
Qed.

Lemma returns_project_form i acc :
  Forall (fun d => has_keys project_keys d = true) acc ->
  returns (project_form ui i acc)
          (Forall (fun d => has_keys project_keys d = true)) Q.
Proof.
  intros Hacc. unfold project_form.
  eapply returns_bind; [by apply returns_emit|]. intros _ _.
  eapply returns_bind; [apply returns_text_input|]. intros title _.
  eapply returns_bind; [apply returns_text_area|]. intros description _.
  apply returns_ret. apply Forall_app. split; [done|]. by repeat constructor.
Qed.

(** The form always returns: the required fields are the widget values,
    every entry it builds carries its keys, and it emits only form
    events. *)
Lemma returns_render_form :
  returns (render_form service ui)
    (fun f =>
       name f = ui_text_input ui "Full Name" /\
       email f = ui_text_input ui "Email Address" /\
       skills f = ui_text_area ui "Skills (comma-separated)" /\
       submitted f = ui_form_submit_button ui "Generate Resume" /\
       Forall (fun d => has_keys experience_keys d = true) (experience f) /\
       Forall (fun d => has_keys education_keys d = true) (education f) /\
       Forall (fun d => has_keys project_keys d = true) (projects f)) Q.
Proof.
  unfold render_form.
  eapply returns_bind; [by apply returns_emit|]. intros _ _.
  eapply returns_bind; [by apply returns_emit|]. intros _ _.
  eapply returns_bind; [apply returns_text_input|]. intros name ->.
  eapply returns_bind; [apply returns_text_input|]. intros email ->.
  eapply returns_bind; [apply returns_text_input|]. intros phone _.
  eapply returns_bind; [apply returns_text_input|]. intros linkedin _.
  eapply returns_bind; [apply returns_text_input|]. intros github _.
  eapply returns_bind; [by apply returns_emit|]. intros _ _.
  eapply returns_bind; [apply returns_text_area|]. intros skills ->.
  eapply returns_bind; [by apply returns_emit|]. intros _ _.
  eapply returns_bind; [apply returns_number_input|]. intros n1 _.
  eapply returns_bind.
  { apply returns_for_each; [apply returns_experience_form | constructor]. }
  intros experience He.
  eapply returns_bind; [by apply returns_emit|]. intros _ _.
  eapply returns_bind; [apply returns_number_input|]. intros n2 _.
  eapply returns_bind.
  { apply returns_for_each; [apply returns_education_form | constructor]. }
  intros education Hd.
  eapply returns_bind; [by apply returns_emit|]. intros _ _.
  eapply returns_bind; [apply returns_number_input|]. intros n3 _.
  eapply returns_bind.
  { apply returns_for_each; [apply returns_project_form | constructor]. }
  intros projects Hp.
  eapply returns_bind; [by apply returns_emit|]. intros _ _.
  eapply returns_bind; [apply returns_text_area|]. intros job_description _.
  eapply returns_bind; [apply returns_form_submit_button|]. intros submitted ->.
  apply returns_ret. simpl. done.
Qed.

End Form.

(** ** Processing a submission *)

Section Process.

Variable service : list event -> string -> outcome.
Variable urlparse : string -> option ParseResult.
Variable docx_save : Document -> list ascii.
Variable qr_png : string -> list ascii.




End Process.

Lemma run_emit ev (h : list event) : emit ev h = (Ok (), [ev]).
Proof. reflexivity. Qed.


Section Main.

Variable service : list event -> string -> outcome.
Variable urlparse : string -> option ParseResult.
Variable docx_save : Document -> list ascii.
Variable qr_png : string -> list ascii.



Variable ui : UI.


End Main.



(** ** Startup *)

Section Startup.

Variable service : list event -> string -> outcome.
Variable urlparse : string -> option ParseResult.
Variable docx_save : Document -> list ascii.
Variable qr_png : string -> list ascii.
Variable ui : UI.

Lemma run_script_halts dotenv environ h :
  truthy_opt (os_getenv (load_dotenv dotenv environ) "GOOGLE_API_KEY") = false ->
  script service urlparse docx_save qr_png ui dotenv environ h
  = (Err StopException, [StError startup_error]).
Proof. intros Hkey. unfold script. rewrite Hkey. reflexivity. Qed.

Lemma run_script_proceeds dotenv environ h :
  truthy_opt (os_getenv (load_dotenv dotenv environ) "GOOGLE_API_KEY") = true ->
  script service urlparse docx_save qr_png ui dotenv environ h
  = main service urlparse docx_save qr_png ui h.
Proof.
  intros Hkey. unfold script. rewrite Hkey. simpl negb. cbv iota.
  apply (run_bind_ret () (fun _ => main service urlparse docx_save qr_png ui)).
Qed.

(** C8, as the script decides it.  With [key] the value [os.getenv] finds
    for GOOGLE_API_KEY once [load_dotenv] has run: if there is none, or
    it is the empty string, the script shows the error and stops before
    [main], so nothing of the form is rendered and no submission is
    served; if it is a non-empty string, the script runs [main]. *)
Theorem startup_requires_api_key dotenv environ h :
  let key := os_getenv (load_dotenv dotenv environ) "GOOGLE_API_KEY" in
  (key = None \/ key = Some "" ->
   script service urlparse docx_save qr_png ui dotenv environ h
   = (Err StopException, [StError startup_error])) /\
  (forall k, key = Some k -> k <> "" ->
   script service urlparse docx_save qr_png ui dotenv environ h
   = main service urlparse docx_save qr_png ui h).
Proof.
  intros key. split.
  - intros Hkey. apply run_script_halts. fold key. by destruct Hkey as [-> | ->].
  - intros k Hkey Hne. apply run_script_proceeds. fold key. rewrite Hkey.
    by apply truthy_true.
Qed.

End Startup.

Lemma startup_requires_api_key_witness :
  script stub_ok stub_urlparse stub_save stub_qr ui_blank ∅ ∅ []
  = (Err StopException, [StError startup_error]) /\
  script stub_ok stub_urlparse stub_save stub_qr ui_blank ∅
    {["GOOGLE_API_KEY" := "secret"]} []
  = main stub_ok stub_urlparse stub_save stub_qr ui_blank [].
Proof.
  split.
  - apply (proj1 (startup_requires_api_key stub_ok stub_urlparse stub_save stub_qr
                    ui_blank ∅ ∅ [])). left. reflexivity.
  - apply (proj2 (startup_requires_api_key stub_ok stub_urlparse stub_save stub_qr
                    ui_blank ∅ {["GOOGLE_API_KEY" := "secret"]} []) "secret").
    + reflexivity.
    + discriminate.
Defined.

(** C8 as stated fails when the variable is present with an empty value:
    the credential is in the environment, and the script stops all the
    same, where [main] would have returned. *)
Lemma startup_present_but_empty_halts :
  is_Some (os_getenv (load_dotenv ∅ {["GOOGLE_API_KEY" := ""]}) "GOOGLE_API_KEY") /\
  script stub_ok stub_urlparse stub_save stub_qr ui_blank ∅
    {["GOOGLE_API_KEY" := ""]} []
  = (Err StopException, [StError startup_error]) /\
  (main stub_ok stub_urlparse stub_save stub_qr ui_blank []).1 = Ok ().
Proof.
  split; [by eexists|]. split; [reflexivity|]. vm_compute. reflexivity.
Qed.

(** ** More on [generate_resume] *)

Lemma iterations_concat_length {A X} (B : A -> _) (n : nat) h (l : list A)
    (pss : list (list X)) out :
  (forall x h ps o, B x h ps o -> length ps = n) ->
  iterations B h l pss out -> length (concat pss) = n * length l.
Proof.
  intros HB. induction 1 as [|h x l ps pss o out Hx _ IH]; simpl; [lia|].
  rewrite length_app, IH, (HB _ _ _ _ Hx). lia.
Qed.






(** X4. A returned document has seven paragraphs (the name, the contact
    line, four section headings and the first bullet), one more bullet per
    comma of [skills], three per experience entry, three per education
    entry and two per project. *)
Theorem generate_resume_paragraph_count service name email phone linkedin
    github skills experience education projects h doc out :
  generate_resume service name email phone linkedin github skills
    experience education projects h = (Ok doc, out) ->
  length doc = 7 + count_char ","%char skills + 3 * length experience
               + 3 * length education + 2 * length projects.
Proof.
  intros Hrun.
  destruct (generate_resume_run _ _ _ _ _ _ _ _ _ _ _ _ _ Hrun)
    as (eg & dg & pg & -> & He & Hd & Hp).
  unfold resume_layout.
  repeat first [rewrite length_app | rewrite length_cons | rewrite length_map].
  rewrite split_length.
  rewrite (iterations_concat_length _ 3 _ _ _ _
             (fun x h ps o B => proj2 (proj2 (experience_block_group service x h ps o B))) He).
  rewrite (iterations_concat_length _ 3 _ _ _ _
             (fun x h ps o B => proj2 (proj2 (education_block_group x h ps o B))) Hd).
  rewrite (iterations_concat_length _ 2 _ _ _ _
             (fun x h ps o B => proj2 (proj2 (project_block_group x h ps o B))) Hp).
  lia.
Qed.

Lemma generate_resume_groups service name email phone linkedin github skills
    experience education projects h doc out :
  generate_resume service name email phone linkedin github skills
    experience education projects h = (Ok doc, out) ->
  exists eg dg pg,
    iterations (experience_block service) h experience eg out /\
    iterations education_block (h ++ out) education dg [] /\
    iterations project_block (h ++ out) projects pg [] /\
    sections doc
    = [(heading1 name, [plain (header_info email phone linkedin github)]);
       (heading2 "Skills", map bullet (map strip (split ","%char skills)));
       (heading2 "Experience", concat eg);
       (heading2 "Education", concat dg);
       (heading2 "Projects", concat pg)] /\
    sub_blocks (concat eg) = map block_of eg /\
    sub_blocks (concat dg) = map block_of dg /\
    sub_blocks (concat pg) = map block_of pg.
Proof.
  intros Hrun.
  destruct (generate_resume_run _ _ _ _ _ _ _ _ _ _ _ _ _ Hrun)
    as (eg & dg & pg & -> & He & Hd & Hp).
  destruct (iterations_sub_blocks _ 2 _ _ _ _ (experience_block_group service) He)
    as (E1 & E2 & _).
  destruct (iterations_sub_blocks _ 2 _ _ _ _ education_block_group Hd)
    as (D1 & D2 & _).
  destruct (iterations_sub_blocks _ 1 _ _ _ _ project_block_group Hp)
    as (P1 & P2 & _).
  exists eg, dg, pg. repeat (split; [done|]).
  unfold sections, sub_blocks. rewrite resume_layout_sections by done.
  by rewrite E2, D2, P2.
Qed.

(** X5. Education entries are never enriched: in a returned document the
    [i]-th sub-block of the Education section is the degree as a
    "Heading 3" paragraph, then "school | dates", then the description
    exactly as supplied. *)
Theorem education_entry_verbatim service name email phone linkedin github
    skills experience education projects h doc out i edu :
  generate_resume service name email phone linkedin github skills
    experience education projects h = (Ok doc, out) ->
  education !! i = Some edu ->
  exists db degree school dates description,
    sections doc !! 3 = Some (heading2 "Education", db) /\
    edu !! "degree" = Some degree /\ edu !! "school" = Some school /\
    edu !! "dates" = Some dates /\ edu !! "description" = Some description /\
    sub_blocks db !! i
    = Some (heading3 degree, [plain (school +:+ " | " +:+ dates); plain description]).
Proof.
  intros Hrun Hi.
  destruct (generate_resume_groups _ _ _ _ _ _ _ _ _ _ _ _ _ Hrun)
    as (eg & dg & pg & _ & Hd & _ & -> & _ & D & _).
  destruct (iterations_lookup _ _ _ _ _ _ _ Hd Hi)
    as (ps & pre & o & post & Hps & _ & Hblock).
  destruct Hblock as (degree & school & dates & description
                      & H1 & H2 & H3 & H4 & -> & _).
  exists (concat dg), degree, school, dates, description.
  repeat (split; [done|]). by rewrite D, lookup_map, Hps.
Qed.

(** X6. Project entries are never enriched: the [i]-th sub-block of the
    Projects section is the title as a "Heading 3" paragraph followed by
    the description exactly as supplied. *)
Theorem project_entry_verbatim service name email phone linkedin github
    skills experience education projects h doc out i proj :
  generate_resume service name email phone linkedin github skills
    experience education projects h = (Ok doc, out) ->
  projects !! i = Some proj ->
  exists pb title description,
    sections doc !! 4 = Some (heading2 "Projects", pb) /\
    proj !! "title" = Some title /\ proj !! "description" = Some description /\
    sub_blocks pb !! i = Some (heading3 title, [plain description]).
Proof.
  intros Hrun Hi.
  destruct (generate_resume_groups _ _ _ _ _ _ _ _ _ _ _ _ _ Hrun)
    as (eg & dg & pg & _ & _ & Hp & -> & _ & _ & P).
  destruct (iterations_lookup _ _ _ _ _ _ _ Hp Hi)
    as (ps & pre & o & post & Hps & _ & Hblock).
  destruct Hblock as (title & description & H1 & H2 & -> & _).
  exists (concat pg), title, description.
  repeat (split; [done|]). by rewrite P, lookup_map, Hps.
Qed.

(** X7. An experience entry whose description is the empty string is
    rendered with an empty description paragraph, whatever the service
    would have answered. *)
Theorem experience_empty_description_kept service name email phone linkedin
    github skills experience education projects h doc out i exp :
  generate_resume service name email phone linkedin github skills
    experience education projects h = (Ok doc, out) ->
  experience !! i = Some exp ->
  exp !! "description" = Some "" ->
  exists eb title company dates,
    sections doc !! 2 = Some (heading2 "Experience", eb) /\
    exp !! "title" = Some title /\ exp !! "company" = Some company /\
    exp !! "dates" = Some dates /\
    sub_blocks eb !! i
    = Some (heading3 title, [plain (company +:+ " | " +:+ dates); plain ""]).
Proof.
  intros Hrun Hi Hdesc.
  destruct (generate_resume_groups _ _ _ _ _ _ _ _ _ _ _ _ _ Hrun)
    as (eg & dg & pg & He & _ & _ & -> & E & _).
  destruct (iterations_lookup _ _ _ _ _ _ _ He Hi)
    as (ps & pre & o & post & Hps & _ & Hblock).
  destruct Hblock as (title & company & dates & desc & H1 & H2 & H3 & H4 & -> & _).
  assert (desc = "") as -> by congruence.
  exists (concat eg), title, company, dates.
  repeat (split; [done|]). by rewrite E, lookup_map, Hps.
Qed.






(** ** The form *)

Lemma service_calls_app (o1 o2 : list event) :
  service_calls (o1 ++ o2) = service_calls o1 ++ service_calls o2.
Proof. apply omap_app. Qed.

Lemma for_each_collect {X} (body : nat -> list X -> M (list X)) (g : nat -> X)
    (p : nat -> list string) :
  (forall i acc h, exists out,
     body i acc h = (Ok (acc ++ [g i]), out) /\ service_calls out = p i) ->
  forall l acc h, exists out,
    for_each l body acc h = (Ok (acc ++ map g l), out) /\
    service_calls out = concat (map p l).
Proof.
  intros Hbody l. induction l as [|i l IH]; intros acc h; simpl.
  - exists []. by rewrite run_ret, app_nil_r.
  - destruct (Hbody i acc h) as (o & E & C).
    destruct (IH (acc ++ [g i]) (h ++ o)) as (out & E' & C').
    exists (o ++ out). rewrite run_bind, E, E', service_calls_app, C, C'.
    by rewrite <- app_assoc.
Qed.

Lemma run_st_text_input ui label (h : list event) :
  st_text_input ui label h = (Ok (ui_text_input ui label), [StTextInput label]).
Proof. reflexivity. Qed.

Lemma run_st_text_area ui label (h : list event) :
  st_text_area ui label h = (Ok (ui_text_area ui label), [StTextArea label]).
Proof. reflexivity. Qed.

Lemma run_st_number_input ui label lo hi value step (h : list event) :
  st_number_input ui label lo hi value step h
  = (Ok (Nat.max lo (Nat.min hi (ui_number_input ui label))),
     [StNumberInput label lo hi value step]).
Proof. reflexivity. Qed.

Lemma run_st_form_submit_button ui label (h : list event) :
  st_form_submit_button ui label h
  = (Ok (ui_form_submit_button ui label), [StFormSubmitButton label]).
Proof. reflexivity. Qed.

(** One step of a straight-line computation. *)
Ltac run_step :=
  rewrite run_bind;
  first [ rewrite run_emit | rewrite run_st_text_input | rewrite run_st_text_area
        | rewrite run_st_number_input | rewrite run_st_form_submit_button
        | rewrite run_try_generate ];
  cbv beta iota.

Lemma run_experience_form service ui i acc h :
  exists out,
    experience_form service ui i acc h = (Ok (acc ++ [form_experience ui i]), out) /\
    service_calls out
    = [skills_suggestions_prompt
         (ui_text_area ui ("Description of Responsibilities #" +:+ str_nat (i + 1)))].
Proof.
  unfold experience_form, generate_skills_suggestions.
  repeat run_step. rewrite run_ret.
  eexists. split; reflexivity.
Qed.

Lemma run_education_form ui i acc h :
  exists out,
    education_form ui i acc h = (Ok (acc ++ [form_education ui i]), out) /\
    service_calls out = [].
Proof.
  unfold education_form. repeat run_step. rewrite run_ret.
  eexists. split; reflexivity.
Qed.

Lemma run_project_form ui i acc h :
  exists out,
    project_form ui i acc h = (Ok (acc ++ [form_project ui i]), out) /\
    service_calls out = [].
Proof.
  unfold project_form. repeat run_step. rewrite run_ret.
  eexists. split; reflexivity.
Qed.

Lemma concat_map_nil {A B} (l : list A) : concat (map (fun _ => @nil B) l) = [].
Proof. induction l; simpl; done. Qed.

Lemma concat_map_singleton {A B} (f : A -> B) (l : list A) :
  concat (map (fun x => [f x]) l) = map f l.
Proof. induction l; simpl; congruence. Qed.

(** The form, in closed form: the values it binds and the calls it makes. *)
Lemma run_render_form service ui h :
  exists out,
    render_form service ui h
    = (Ok {| name := ui_text_input ui "Full Name";
             email := ui_text_input ui "Email Address";
             phone := ui_text_input ui "Phone Number";
             linkedin := ui_text_input ui "LinkedIn Profile URL";
             github := ui_text_input ui "GitHub Profile URL";
             skills := ui_text_area ui "Skills (comma-separated)";
             experience :=
               map (form_experience ui)
                   (seq 0 (Nat.min 5 (ui_number_input ui "Number of Experience Entries")));
             education :=
               map (form_education ui)
                   (seq 0 (Nat.min 3 (ui_number_input ui "Number of Education Entries")));
             projects :=
               map (form_project ui)
                   (seq 0 (Nat.min 5 (ui_number_input ui "Number of Projects")));
             job_description := ui_text_area ui "Paste Job Description Here";
             submitted := ui_form_submit_button ui "Generate Resume" |}, out) /\
    service_calls out
    = map (fun i => skills_suggestions_prompt
                      (ui_text_area ui ("Description of Responsibilities #"
                                        +:+ str_nat (i + 1))))
          (seq 0 (Nat.min 5 (ui_number_input ui "Number of Experience Entries"))).
Proof.
  unfold render_form.
  repeat run_step.
  rewrite run_bind.
  match goal with |- context [for_each ?l (experience_form _ _) ?acc ?h'] =>
    destruct (for_each_collect _ _ _ (run_experience_form service ui) l acc h')
      as (oe & -> & Ce) end.
  cbv beta iota. repeat run_step.
  rewrite run_bind.
  match goal with |- context [for_each ?l (education_form _) ?acc ?h'] =>
    destruct (for_each_collect _ _ _ (run_education_form ui) l acc h')
      as (od & -> & Cd) end.
  cbv beta iota. repeat run_step.
  rewrite run_bind.
  match goal with |- context [for_each ?l (project_form _) ?acc ?h'] =>
    destruct (for_each_collect _ _ _ (run_project_form ui) l acc h')
      as (op & -> & Cp) end.
  cbv beta iota. repeat run_step. rewrite run_ret.
  eexists. split; [reflexivity|].
  rewrite concat_map_singleton in Ce. rewrite concat_map_nil in Cd, Cp.
  repeat (rewrite service_calls_app). rewrite Ce, Cd, Cp. simpl.
  by rewrite app_nil_r.
Qed.

(** X8. The form binds, for every widget state, the entries built from the
    widget values, one per index below the number input, which is capped:
    at most five experience entries, three education entries and five
    projects reach [generate_resume], each with all its keys. *)
Theorem render_form_entries service ui h :
  exists f out,
    render_form service ui h = (Ok f, out) /\
    experience f
    = map (form_experience ui)
          (seq 0 (Nat.min 5 (ui_number_input ui "Number of Experience Entries"))) /\
    education f
    = map (form_education ui)
          (seq 0 (Nat.min 3 (ui_number_input ui "Number of Education Entries"))) /\
    projects f
    = map (form_project ui)
          (seq 0 (Nat.min 5 (ui_number_input ui "Number of Projects"))) /\
    length (experience f) <= 5 /\ length (education f) <= 3 /\
    length (projects f) <= 5 /\
    Forall (fun d => has_keys experience_keys d = true) (experience f) /\
    Forall (fun d => has_keys education_keys d = true) (education f) /\
    Forall (fun d => has_keys project_keys d = true) (projects f).
Proof.
  destruct (run_render_form service ui h) as (out & E & _).
  eexists _, out. split; [exact E|]. cbn [experience education projects].
  split; [reflexivity|]. split; [reflexivity|]. split; [reflexivity|].
  rewrite !length_map, !length_seq.
  split; [lia|]. split; [lia|]. split; [lia|].
  split; [|split]; apply Forall_forall; intros d Hd;
    apply list_elem_of_In, in_map_iff in Hd as (i & <- & _); reflexivity.
Qed.

(** X9. Rendering the form sends one skill-suggestion prompt per
    experience entry, built from that entry's description widget, in
    order, and nothing else to the service; this happens whether or not
    the form was submitted or is valid. *)
Theorem render_form_service_calls service ui h :
  exists f out,
    render_form service ui h = (Ok f, out) /\
    service_calls out
    = map (fun i => skills_suggestions_prompt
                      (ui_text_area ui ("Description of Responsibilities #"
                                        +:+ str_nat (i + 1))))
          (seq 0 (Nat.min 5 (ui_number_input ui "Number of Experience Entries"))) /\
    length (service_calls out) = length (experience f).
Proof.
  destruct (run_render_form service ui h) as (out & E & C).
  eexists _, out. split; [exact E|]. split; [exact C|].
  rewrite C. cbn [experience]. by rewrite !length_map.
Qed.

Section MainRuns.

Variable service : list event -> string -> outcome.
Variable urlparse : string -> option ParseResult.
Variable docx_save : Document -> list ascii.
Variable qr_png : string -> list ascii.
Variable ui : UI.

(** X10. When the submit button was not pressed, [main] shows the title
    and the form and stops there: no validation message, no resume, no
    link; the only calls to the service are the skill suggestions of the
    form. *)
Theorem main_not_submitted h :
  ui_form_submit_button ui "Generate Resume" = false ->
  exists f form_events,
    render_form service ui (h ++ [StTitle "Smart Resume Generator"])
    = (Ok f, form_events) /\
    main service urlparse docx_save qr_png ui h
    = (Ok (), StTitle "Smart Resume Generator" :: form_events) /\
    Forall (fun ev => form_event ev = true) form_events /\
    length (service_calls (StTitle "Smart Resume Generator" :: form_events))
    = Nat.min 5 (ui_number_input ui "Number of Experience Entries").
Proof.
  intros Hsub.
  destruct (returns_render_form service ui (h ++ [StTitle "Smart Resume Generator"]))
    as (f & form_events & Ef & (_ & _ & _ & Hb & _) & Hev).
  destruct (run_render_form service ui (h ++ [StTitle "Smart Resume Generator"]))
    as (out & E & C).
  rewrite Ef in E. injection E as Hf <-.
  exists f, form_events. split; [done|]. split; [|split; [done|]].
  - unfold main. rewrite run_bind, run_emit, run_bind, Ef.
    unfold on_submit. rewrite Hb, Hsub. by rewrite run_ret, app_nil_r.
  - change (service_calls (StTitle "Smart Resume Generator" :: form_events))
      with (service_calls form_events).
    by rewrite C, length_map, length_seq.
Qed.



(** X13. The LinkedIn step never reads a profile.  For an empty field or a
    URL the validator rejects it only shows a warning; for every accepted
    URL it shows the same warning and success messages and sends one
    prompt built from the fixed example profile, not from the URL, then
    shows the returned text (or error string). *)
Theorem linkedin_integration_is_placeholder linkedin h :
  linkedin_integration service urlparse linkedin h
  = if truthy linkedin && is_valid_linkedin_url urlparse linkedin then
      (Ok (),
       [StWarning "Fetching LinkedIn data directly is risky.  Use a LinkedIn API or proceed with caution.";
        StSuccess "LinkedIn data fetched (with caution!).";
        GenerateContent (profile_improvements_prompt linkedin_dummy);
        StHeader "LinkedIn Profile Improvement Suggestions";
        StWrite (text_or_error "Error suggesting profile improvements: "
                   (service (h ++ [StWarning "Fetching LinkedIn data directly is risky.  Use a LinkedIn API or proceed with caution.";
                                   StSuccess "LinkedIn data fetched (with caution!)."])
                            (profile_improvements_prompt linkedin_dummy)))])
    else
      (Ok (), [StWarning "Invalid LinkedIn URL or LinkedIn integration skipped."]).
Proof.
  unfold linkedin_integration.
  destruct (truthy linkedin && is_valid_linkedin_url urlparse linkedin);
    [|reflexivity].
  unfold fetch_linkedin_data, suggest_profile_improvements.
  rewrite run_bind. rewrite run_bind, run_emit. cbv beta iota.
  unfold try_except at 1. rewrite run_ret. cbv beta iota.
  repeat run_step. rewrite run_emit.
  rewrite <- !app_assoc. reflexivity.
Qed.

End MainRuns.

(** ** More on base64 *)

Lemma encode_sextet_b64_char (b5 b4 b3 b2 b1 b0 : bool) :
  b64_char (Base64.encode_sextet (b5, b4, b3, b2, b1, b0)) = true.
Proof. destruct b5, b4, b3, b2, b1, b0; reflexivity. Qed.

Lemma b64_char_safe (c : ascii) :
  b64_char c = true ->
  c <> "034"%char /\ c <> "<"%char /\ c <> ">"%char /\ c <> "&"%char /\ c <> "'"%char.
Proof. intros Hc. repeat split; intros ->; discriminate. Qed.

(** X14. The base64 text of the download link has four characters for
    every started group of three bytes of the serialized document. *)
Theorem b64encode_length (bs : list ascii) :
  String.length (Base64.b64encode bs) = 4 * ((length bs + 2) / 3).
Proof.
  induction bs as [|a|a b|a b c l IH] using list_ind3.
  - reflexivity.
  - by destruct a.
  - by destruct a, b.
  - destruct a, b, c. cbn [Base64.b64encode String.length length].
    rewrite IH.
    replace (S (S (S (length l))) + 2) with (length l + 2 + 1 * 3) by lia.
    rewrite Nat.div_add by lia. lia.
Qed.

(** X15. The base64 text holds only letters, digits, "+", "/" and "=": no
    double quote, angle bracket, ampersand or apostrophe, so the payload
    cannot close the [href] attribute it is placed in. *)
Theorem b64encode_alphabet (bs : list ascii) :
  Forall (fun c => b64_char c = true /\ c <> "034"%char /\ c <> "<"%char /\
                   c <> ">"%char /\ c <> "&"%char /\ c <> "'"%char)
         (list_ascii_of_string (Base64.b64encode bs)).
Proof.
  assert (forall c, b64_char c = true ->
            b64_char c = true /\ c <> "034"%char /\ c <> "<"%char /\
            c <> ">"%char /\ c <> "&"%char /\ c <> "'"%char) as Hsafe
    by (intros c Hc; split; [done|by apply b64_char_safe]).
  induction bs as [|a|a b|a b c l IH] using list_ind3.
  - constructor.
  - destruct a. cbn [Base64.b64encode list_ascii_of_string].
    repeat constructor; apply Hsafe; first [apply encode_sextet_b64_char | reflexivity].
  - destruct a, b. cbn [Base64.b64encode list_ascii_of_string].
    repeat constructor; apply Hsafe; first [apply encode_sextet_b64_char | reflexivity].
  - destruct a, b, c. cbn [Base64.b64encode list_ascii_of_string].
    repeat (constructor; [apply Hsafe, encode_sextet_b64_char|]). exact IH.
Qed.

(** ** More on [split], [strip] and the resume text *)

(** X16. Splitting what [join] built gives the tokens back, provided there
    is at least one token and no token contains the separator. *)
Theorem split_join (sep : ascii) (l : list string) :
  l <> [] ->
  Forall (fun t => count_char sep t = 0) l ->
  split sep (join (String sep "") l) = l.
Proof.
  assert (forall t rest, count_char sep t = 0 ->
            split sep (t +:+ String sep rest) = t :: split sep rest) as Hcons.
  { induction t as [|c t IH]; intros rest Ht.
    - rewrite append_nil_l. simpl. by rewrite Ascii.eqb_refl.
    - simpl in Ht. rewrite append_cons. simpl.
      destruct (Ascii.eqb c sep); [done|]. by rewrite IH. }
  assert (forall t, count_char sep t = 0 -> split sep t = [t]) as Hone.
  { induction t as [|c t IH]; intros Ht; [done|].
    simpl in *. destruct (Ascii.eqb c sep); [done|]. by rewrite IH. }
  intros Hne Hl. induction Hl as [|t l Ht Hl IH]; [done|].
  destruct l as [|t' l].
  - simpl. by apply Hone.
  - change (join (String sep "") (t :: t' :: l))
      with (t +:+ String sep (join (String sep "") (t' :: l))).
    rewrite Hcons by done. by rewrite IH.
Qed.

Lemma lstrip_id s : starts_space s = false -> lstrip s = s.
Proof. destruct s as [|c s]; simpl; [done|]. by intros ->. Qed.

Lemma rstrip_id s : ends_space s = false -> rstrip s = s.
Proof.
  induction s as [|c s IH]; [done|]. intros He.
  destruct s as [|c' s].
  - simpl in *. by rewrite He.
  - change (ends_space (String c (String c' s))) with (ends_space (String c' s)) in He.
    change (rstrip (String c (String c' s)))
      with (match rstrip (String c' s) with
            | "" => if isspace c then "" else String c ""
            | r => String c r
            end).
    by rewrite IH.
Qed.

(** X17. [strip] leaves a string without surrounding whitespace unchanged,
    so stripping twice is stripping once: bullets made from already
    trimmed skills are the skills themselves. *)
Theorem strip_idempotent (s : string) :
  strip (strip s) = strip s /\
  (starts_space s = false -> ends_space s = false -> strip s = s).
Proof.
  assert (forall t, starts_space t = false -> ends_space t = false -> strip t = t)
    as Hid.
  { intros t Hs He. unfold strip. by rewrite lstrip_id, rstrip_id. }
  split; [|apply Hid].
  destruct (strip_spec s) as (_ & _ & _ & _ & _ & Hs & He). by apply Hid.
Qed.




(** ** The LinkedIn URL check *)

Lemma startswith_spec (p s : string) :
  startswith p s = true <-> exists r, s = p +:+ r.
Proof.
  revert s. induction p as [|a p IH]; intros s.
  - split; [by exists s|done].
  - destruct s as [|b s]; simpl.
    + split; [done|]. by intros (r & ?).
    + rewrite andb_true_iff, IH. split.
      * intros (Hab & r & ->). apply Ascii.eqb_eq in Hab as ->. by exists r.
      * intros (r & Hr). rewrite append_cons in Hr. injection Hr as -> ->.
        split; [apply Ascii.eqb_refl|by exists r].
Qed.

(** X19. A LinkedIn URL is accepted exactly when it parses, has a scheme,
    its host is literally "www.linkedin.com" and its path begins with
    "/in/"; a URL that makes [urlparse] raise is rejected, not an error. *)
Theorem is_valid_linkedin_url_iff (urlparse : string -> option ParseResult)
    (url : string) :
  is_valid_linkedin_url urlparse url = true <->
  exists result rest,
    urlparse url = Some result /\ scheme result <> "" /\
    netloc result = "www.linkedin.com" /\ path result = "/in/" +:+ rest.
Proof.
  unfold is_valid_linkedin_url. destruct (urlparse url) as [result|]; cycle 1.
  { split; [done|]. by intros (? & ? & ? & _). }
  cbn [forallb id]. rewrite !andb_true_iff, String.eqb_eq, startswith_spec.
  split.
  - intros (Hs & Hn & (rest & Hp) & _). exists result, rest.
    split; [done|]. split; [|done]. intros E. by rewrite E in Hs.
  - intros (r & rest & [= <-] & Hs & Hn & Hp).
    split; [by apply truthy_true|]. split; [done|]. split; [by exists rest|done].
Qed.

(** What Python prints for the placeholder dataset. *)
Example str_linkedin_dummy :
  str_linkedin_data linkedin_dummy
  = "{'name': 'John Doe (Example)', 'skills': 'Python, Data Analysis, Machine Learning', 'experience': [{'title': 'Data Scientist', 'company': 'Example Corp', 'dates': '2020-Present', 'description': 'Built machine learning models.'}], 'education': [{'degree': "
    +:+ dquote +:+ "Master's in CS" +:+ dquote +:+
    ", 'school': 'Example University', 'dates': '2018-2020', 'description': 'Focus on AI.'}]}".
Proof. vm_compute. reflexivity. Qed.

(** ** Concrete runs *)

Lemma generate_resume_calls_witness :
  exists doc out,
    generate_resume stub_ok "Ada" "ada@example.org" "555" "in/ada" "ada"
      "Python, SQL" [sample_experience_blank; sample_experience]
      [sample_education] [sample_project] [] = (Ok doc, out) /\
    out = [GenerateContent (summarize_experience_prompt "Built data pipelines.")].
Proof.
  eexists _, _. split; [vm_compute; reflexivity|].
  exact (generate_resume_calls stub_ok "Ada" "ada@example.org" "555" "in/ada" "ada"
           "Python, SQL" [sample_experience_blank; sample_experience]
           [sample_education] [sample_project] [] _ _ eq_refl).
Defined.


Lemma generate_resume_paragraph_count_witness :
  exists doc out,
    generate_resume stub_ok "Ada" "ada@example.org" "555" "in/ada" "ada"
      "Python, SQL,Rocq" [sample_experience; sample_experience_blank]
      [sample_education] [sample_project] [] = (Ok doc, out) /\
    length doc = 7 + 2 + 3 * 2 + 3 * 1 + 2 * 1.
Proof.
  eexists _, _. split; [vm_compute; reflexivity|].
  exact (generate_resume_paragraph_count stub_ok "Ada" "ada@example.org" "555"
           "in/ada" "ada" "Python, SQL,Rocq"
           [sample_experience; sample_experience_blank] [sample_education]
           [sample_project] [] _ _ eq_refl).
Defined.

Lemma education_entry_verbatim_witness :
  exists doc out,
    generate_resume stub_raises "Ada" "ada@example.org" "555" "in/ada" "ada"
      "Python, SQL" [sample_experience] [sample_education] [sample_project] []
    = (Ok doc, out) /\
    exists db degree school dates description,
      sections doc !! 3 = Some (heading2 "Education", db) /\
      sample_education !! "degree" = Some degree /\
      sample_education !! "school" = Some school /\
      sample_education !! "dates" = Some dates /\
      sample_education !! "description" = Some description /\
      sub_blocks db !! 0
      = Some (heading3 degree, [plain (school +:+ " | " +:+ dates); plain description]).
Proof.
  eexists _, _. split; [vm_compute; reflexivity|].
  exact (education_entry_verbatim stub_raises "Ada" "ada@example.org" "555"
           "in/ada" "ada" "Python, SQL" [sample_experience] [sample_education]
           [sample_project] [] _ _ 0 sample_education eq_refl eq_refl).
Defined.

Lemma project_entry_verbatim_witness :
  exists doc out,
    generate_resume stub_raises "Ada" "ada@example.org" "555" "in/ada" "ada"
      "Python, SQL" [sample_experience] [sample_education] [sample_project] []
    = (Ok doc, out) /\
    exists pb title description,
      sections doc !! 4 = Some (heading2 "Projects", pb) /\
      sample_project !! "title" = Some title /\
      sample_project !! "description" = Some description /\
      sub_blocks pb !! 0 = Some (heading3 title, [plain description]).
Proof.
  eexists _, _. split; [vm_compute; reflexivity|].
  exact (project_entry_verbatim stub_raises "Ada" "ada@example.org" "555"
           "in/ada" "ada" "Python, SQL" [sample_experience] [sample_education]
           [sample_project] [] _ _ 0 sample_project eq_refl eq_refl).
Defined.

Lemma experience_empty_description_kept_witness :
  exists doc out,
    generate_resume stub_ok "Ada" "ada@example.org" "555" "in/ada" "ada"
      "Python, SQL" [sample_experience; sample_experience_blank] [] [] []
    = (Ok doc, out) /\
    exists eb title company dates,
      sections doc !! 2 = Some (heading2 "Experience", eb) /\
      sample_experience_blank !! "title" = Some title /\
      sample_experience_blank !! "company" = Some company /\
      sample_experience_blank !! "dates" = Some dates /\
      sub_blocks eb !! 1
      = Some (heading3 title, [plain (company +:+ " | " +:+ dates); plain ""]).
Proof.
  eexists _, _. split; [vm_compute; reflexivity|].
  exact (experience_empty_description_kept stub_ok "Ada" "ada@example.org" "555"
           "in/ada" "ada" "Python, SQL" [sample_experience; sample_experience_blank]
           [] [] [] _ _ 1 sample_experience_blank eq_refl eq_refl eq_refl).
Defined.

Lemma main_not_submitted_witness :
  exists f form_events,
    render_form stub_ok ui_idle ([] ++ [StTitle "Smart Resume Generator"])
    = (Ok f, form_events) /\
    main stub_ok stub_urlparse stub_save stub_qr ui_idle []
    = (Ok (), StTitle "Smart Resume Generator" :: form_events) /\
    Forall (fun ev => form_event ev = true) form_events /\
    length (service_calls (StTitle "Smart Resume Generator" :: form_events))
    = Nat.min 5 (ui_number_input ui_idle "Number of Experience Entries").
Proof.
  exact (main_not_submitted stub_ok stub_urlparse stub_save stub_qr ui_idle []
           eq_refl).
Defined.

Lemma split_join_witness :
  split ","%char (join "," ["A"; ""; " B"]) = ["A"; ""; " B"].
Proof. apply split_join; [discriminate | repeat constructor]. Defined.

Lemma strip_idempotent_witness : strip "a b" = "a b".
Proof. exact (proj2 (strip_idempotent "a b") eq_refl eq_refl). Defined.
